(** * hepic-app-server: authentication and access control

    A shallow embedding of the Go sources of the authentication core
    (services/auth_service.go, database/database.go, the JWT middleware
    and the auth handlers) together with the properties of the
    specification that concern them.

    Conventions of the embedding.
    - Go [int], [int64] and [time.Duration] are [Z] with the 64-bit
      wrap-around written out ([Go.wrap64]).
    - A [time.Time] is the number of nanoseconds since the Unix epoch;
      [time.Unix] keeps its seconds in an int64 counted from year 1 and
      wraps as that does.
    - A Go function [f(...) (T, error)] is a computation [M (Result T)]
      over the [World]: the users table, the fate of the coming
      connection calls, the clock and the random source.
    - The connection is the native one of clickhouse-go/v2, which
      converts a column only into the Go types of its own type: the
      [Scan] of the [UInt64] columns [id] and [count()] into an int64
      is refused, and a [time.Time] bound to a statement reaches the
      [DateTime] columns in whole seconds.
    - Structured logging ([slog]) has no effect on results and is left out. *)

From Stdlib Require Import ZArith List String Ascii Bool Lia.
From Stdlib Require Import Sorting.Sorted.
From Stdlib Require Import Floats.SpecFloat.
Import ListNotations.
Open Scope string_scope.
Open Scope Z_scope.

Set Implicit Arguments.

(* ================================================================= *)
(** ** The Go runtime: machine integers, float64, time, errors *)

Module Go.

Definition MaxInt64 : Z := 2 ^ 63 - 1.
Definition MinInt64 : Z := - 2 ^ 63.

(** Two's complement wrap-around of a 64-bit signed result. *)
Definition wrap64 (z : Z) : Z := (z + 2 ^ 63) mod 2 ^ 64 - 2 ^ 63.

Definition in_int64 (z : Z) : Prop := MinInt64 <= z <= MaxInt64.

(** Go's [/] on integers truncates toward zero; the single overflowing
    quotient [MinInt64 / -1] wraps.  Division by zero panics and is
    handled by the caller of [quo64]. *)
Definition quo64 (a b : Z) : Z := wrap64 (Z.quot a b).

(** *** float64

    [encoding/json] reads a number into an [interface{}] as a float64
    ([strconv.ParseFloat], correctly rounded: nearest, ties to even).
    The numerals this service writes into a token are integers, and the
    nearest binary64 of an integer below [2^1024] is again an integer,
    so a float64 read from such a numeral is represented by its (exact)
    integer value. *)
Definition float64_of_int (z : Z) : Z :=
  let a := Z.abs z in
  if a <? 2 ^ 53 then z
  else
    let e := Z.log2 a - 52 in
    let q := Z.shiftr a e in
    let r := Z.land a (Z.ones e) in
    let half := Z.shiftl 1 (e - 1) in
    let q' := if r <? half then q
              else if half <? r then q + 1
              else if Z.even q then q else q + 1 in
    Z.sgn z * Z.shiftl q' e.

(** Numerals at or beyond this magnitude round to an infinity:
    [ParseFloat] reports a range error. *)
Definition float64_overflows (z : Z) : bool :=
  2 ^ 1024 - 2 ^ 970 <=? Z.abs z.

(** The conversion [int64(f)] of an integral float64.  Out of range
    the Go specification leaves the result to the implementation;
    amd64 yields the smallest int64. *)
Definition int64_of_float64 (f : Z) : Z :=
  if (MinInt64 <=? f) && (f <=? MaxInt64) then f else MinInt64.

(** The integer value of a finite IEEE 754 number of the standard
    library's specification, used to cross-check [float64_of_int]. *)
Definition Z_of_spec_float (f : spec_float) : option Z :=
  match f with
  | S754_zero _ => Some 0
  | S754_finite s m e =>
      let v := if 0 <=? e then Z.pos m * 2 ^ e else Z.pos m / 2 ^ (- e) in
      Some (if s then - v else v)
  | _ => None
  end.

Definition binary64_of_int (z : Z) : option Z :=
  Z_of_spec_float (binary_normalize 53 1024 z 0 false).

(** *** time *)

Definition Time := Z.
Definition Duration := Z.

Definition Second : Duration := 1000000000.
Definition Hour : Duration := 3600 * Second.

(** [time.Duration(n) * d] *)
Definition Duration_mul (n : Z) (d : Duration) : Duration := wrap64 (n * d).

(** [t.Add(d)]; the range of [time.Time] (hundreds of billions of
    years) is not modelled. *)
Definition Add (t : Time) (d : Duration) : Time := t + d.
(** [t.Unix()]: whole seconds since the epoch, rounded down. *)
Definition Unix (t : Time) : Z := t / Second.
(** [t.UnixNano()] *)
Definition UnixNano (t : Time) : Z := wrap64 t.
(** [time.Unix(sec, nsec)], for [0 <= nsec < 1e9].  The instant is
    kept as seconds from 1 January of year 1, [sec + unixToInternal] in
    an int64: for a [sec] above [MaxInt64 - unixToInternal] the sum wraps
    and the instant lies some 292 billion years before the epoch. *)
Definition unixToInternal : Z := 62135596800.
Definition time_Unix (sec nsec : Z) : Time :=
  (wrap64 (sec + unixToInternal) - unixToInternal) * Second + nsec.
(** [t.Before(u)] *)
Definition Before (t u : Time) : bool := t <? u.

(** *** errors *)

(** The sentinel errors of github.com/golang-jwt/jwt/v5 that
    [errors.Is] can find in an error returned by [jwt.Parse]. *)
Inductive jwt_sentinel :=
| ErrTokenMalformed
| ErrTokenUnverifiable
| ErrTokenSignatureInvalid
| ErrTokenInvalidClaims
| ErrTokenExpired
| ErrTokenNotValidYet
| ErrInvalidType
| ErrInvalidKeyType.

Definition jwt_sentinel_eqb (a b : jwt_sentinel) : bool :=
  match a, b with
  | ErrTokenMalformed, ErrTokenMalformed
  | ErrTokenUnverifiable, ErrTokenUnverifiable
  | ErrTokenSignatureInvalid, ErrTokenSignatureInvalid
  | ErrTokenInvalidClaims, ErrTokenInvalidClaims
  | ErrTokenExpired, ErrTokenExpired
  | ErrTokenNotValidYet, ErrTokenNotValidYet
  | ErrInvalidType, ErrInvalidType
  | ErrInvalidKeyType, ErrInvalidKeyType => true
  | _, _ => false
  end.

(** A Go [error] value. *)
Inductive error :=
| Errorf (msg : string)                      (* fmt.Errorf(msg), errors.New(msg) *)
| Errorf_w (prefix : string) (cause : error) (* fmt.Errorf(prefix + ": %w", cause) *)
| jwt_error (joined : list jwt_sentinel)     (* an error of the jwt package *)
| sql_ErrNoRows                              (* Scan found no row *)
| driver_error                               (* the connection call failed *)
| ColumnConverterError (column from to : string)
    (* clickhouse-go: "(column) converting from to to is unsupported" *)
| bcrypt_error (msg : string).

(** [errors.Is(err, target)] for a sentinel of the jwt package. *)
Fixpoint errors_Is (err : error) (target : jwt_sentinel) : bool :=
  match err with
  | Errorf_w _ cause => errors_Is cause target
  | jwt_error joined => existsb (jwt_sentinel_eqb target) joined
  | _ => false
  end.

(** The outcome of a call: a value, an error, or a run-time panic. *)
Inductive Result (T : Type) :=
| Ok (v : T)
| Err (e : error)
| Panic (msg : string).
Arguments Err {T} e.
Arguments Panic {T} msg.

End Go.

(* ================================================================= *)
(** ** package models *)

Module models.
Import Go.

Record User := mkUser {
  ID : Z;
  Username : string;
  Email : string;
  Password : string;
  Role : string;
  IsActive : bool;
  CreatedAt : Time;
  UpdatedAt : Time;
  LastLogin : option Time }.

Record UserCreateRequest := mkUserCreateRequest {
  create_Username : string;
  create_Email : string;
  create_Password : string;
  create_Role : string }.

Record UserUpdateRequest := mkUserUpdateRequest {
  update_Username : string;
  update_Email : string;
  update_Role : string;
  update_IsActive : option bool }.

Record LoginRequest := mkLoginRequest {
  login_Username : string;
  login_Password : string }.

Record UserChangePasswordRequest := mkUserChangePasswordRequest {
  CurrentPassword : string;
  NewPassword : string }.

Record JWTPayload := mkJWTPayload {
  UserID : Z;
  payload_Username : string;
  payload_Role : string;
  Exp : Z;
  Iat : Z }.

Record UserListResponse := mkUserListResponse {
  Users : list User;
  Total : Z;
  Page : Z;
  PerPage : Z;
  TotalPages : Z }.

(** Field updates of a [*models.User]. *)
Definition set_ID (u : User) (v : Z) : User :=
  mkUser v (Username u) (Email u) (Password u) (Role u) (IsActive u)
         (CreatedAt u) (UpdatedAt u) (LastLogin u).
Definition set_Username (u : User) (v : string) : User :=
  mkUser (ID u) v (Email u) (Password u) (Role u) (IsActive u)
         (CreatedAt u) (UpdatedAt u) (LastLogin u).
Definition set_Email (u : User) (v : string) : User :=
  mkUser (ID u) (Username u) v (Password u) (Role u) (IsActive u)
         (CreatedAt u) (UpdatedAt u) (LastLogin u).
Definition set_Password (u : User) (v : string) : User :=
  mkUser (ID u) (Username u) (Email u) v (Role u) (IsActive u)
         (CreatedAt u) (UpdatedAt u) (LastLogin u).
Definition set_Role (u : User) (v : string) : User :=
  mkUser (ID u) (Username u) (Email u) (Password u) v (IsActive u)
         (CreatedAt u) (UpdatedAt u) (LastLogin u).
Definition set_IsActive (u : User) (v : bool) : User :=
  mkUser (ID u) (Username u) (Email u) (Password u) (Role u) v
         (CreatedAt u) (UpdatedAt u) (LastLogin u).
Definition set_UpdatedAt (u : User) (v : Time) : User :=
  mkUser (ID u) (Username u) (Email u) (Password u) (Role u) (IsActive u)
         (CreatedAt u) v (LastLogin u).
Definition set_LastLogin (u : User) (v : option Time) : User :=
  mkUser (ID u) (Username u) (Email u) (Password u) (Role u) (IsActive u)
         (CreatedAt u) (UpdatedAt u) v.

End models.

(* ================================================================= *)
(** ** The world the service runs in *)

Module world.
Import Go models.

(** - [users]: the rows of the ClickHouse table [users], in storage
      order (mutations are taken to be applied when [Exec] returns);
    - [faults]: the fate of the coming calls on the connection, one
      entry per call, [true] for a call that fails with a driver
      error; once the list is used up every call goes through;
    - [now], [later]: the reading [time.Now()] gives next and the
      readings after it (the last one repeats);
    - [entropy]: the bytes [crypto/rand] hands out next (zeros after). *)
Record World := mkWorld {
  users : list User;
  faults : list bool;
  now : Time;
  later : list Time;
  entropy : list Z }.

(** Computations over the world. *)
Definition M (A : Type) : Type := World -> A * World.

Definition ret {A} (a : A) : M A := fun w => (a, w).
Definition bind {A B} (m : M A) (f : A -> M B) : M B :=
  fun w => let (a, w') := m w in f a w'.

Declare Scope go_scope.
Delimit Scope go_scope with go.
Notation "x <- m ;; k" := (bind m (fun x => k))
  (at level 61, m at next level, right associativity) : go_scope.
Notation "m ;;; k" := (bind m (fun _ => k))
  (at level 61, right associativity) : go_scope.

(** [time.Now()] *)
Definition time_Now : M Time := fun w =>
  (now w,
   match later w with
   | [] => w
   | t :: ts => mkWorld (users w) (faults w) t ts (entropy w)
   end).

(** [rand.Read(make([]byte, n))] *)
Fixpoint take_entropy (n : nat) (e : list Z) : list Z * list Z :=
  match n with
  | O => ([], e)
  | S n' =>
      match e with
      | [] => let (bs, e') := take_entropy n' [] in (0 :: bs, e')
      | b :: e0 => let (bs, e') := take_entropy n' e0 in (b :: bs, e')
      end
  end.

Definition rand_Read (n : nat) : M (list Z) := fun w =>
  let (bs, e') := take_entropy n (entropy w) in
  (bs, mkWorld (users w) (faults w) (now w) (later w) e').

(** One call on the ClickHouse connection: [true] when it goes through. *)
Definition conn_call : M bool := fun w =>
  match faults w with
  | [] => (true, w)
  | f :: fs => (negb f, mkWorld (users w) fs (now w) (later w) (entropy w))
  end.

Definition get_users : M (list User) := fun w => (users w, w).
Definition put_users (us : list User) : M unit := fun w =>
  (tt, mkWorld us (faults w) (now w) (later w) (entropy w)).

End world.

(* ================================================================= *)
(** ** package database (ClickHouseDB) *)

Module database.
Import Go models world.
Local Open Scope go_scope.

(** *** The driver

    What [Scan] of clickhouse-go/v2 converts.  Each column of the result
    is handed to the destination at its position ([ScanRow]); a column
    goes only into the Go types of its own type ([UInt64] into
    [*uint64], never into [*int64]), and the first column that does not
    is the error of the [Scan]. *)
Inductive ColumnType :=
| UInt64
| UInt8
| String_
| DateTime
| Nullable (base : ColumnType).

(** The destinations this package scans into. *)
Inductive Dest :=
| ptr_int64      (* *int64 *)
| ptr_string     (* *string *)
| ptr_bool       (* *bool *)
| ptr_Time       (* *time.Time *)
| ptr_ptr_Time.  (* **time.Time *)

Fixpoint type_name (col : ColumnType) : string :=
  match col with
  | UInt64 => "UInt64"
  | UInt8 => "UInt8"
  | String_ => "String"
  | DateTime => "DateTime"
  | Nullable base => "Nullable(" ++ type_name base ++ ")"
  end.

Definition dest_name (dest : Dest) : string :=
  match dest with
  | ptr_int64 => "*int64"
  | ptr_string => "*string"
  | ptr_bool => "*bool"
  | ptr_Time => "*time.Time"
  | ptr_ptr_Time => "**time.Time"
  end.

(** [col.ScanRow(dest, row)]: whether the column converts.  The flag
    [is_active] ([UInt8]) goes into a [*bool], a [String] into a
    [*string], a [DateTime] into a [*time.Time] or, nullable, into a
    [**time.Time]; an unsigned integer goes into no signed one. *)
Fixpoint ScanRow (col : ColumnType) (dest : Dest) : bool :=
  match col, dest with
  | UInt8, ptr_bool => true
  | String_, ptr_string => true
  | DateTime, ptr_Time => true
  | DateTime, ptr_ptr_Time => true
  | Nullable base, _ => ScanRow base dest
  | _, _ => false
  end.

Fixpoint scan_columns (columns : list (string * ColumnType)) (dest : list Dest)
  : option error :=
  match columns, dest with
  | (name, col) :: columns', d :: dest' =>
      if ScanRow col d then scan_columns columns' dest'
      else Some (ColumnConverterError name (type_name col) (dest_name d))
  | _, _ => None
  end.

(** [scan(block, row, dest...)]: [None] is [nil]. *)
Definition scan (columns : list (string * ColumnType)) (dest : list Dest)
  : option error :=
  if negb (List.length columns =? List.length dest)%nat
  then Some (Errorf "clickhouse [Scan]: wrong number of destination arguments")
  else scan_columns columns dest.

(** [CREATE TABLE users (id UInt64, username String, email String,
    password String, role String, is_active UInt8, created_at DateTime,
    updated_at DateTime, last_login Nullable(DateTime))], in the order of
    the SELECT of the three lookups, and the destinations of their
    [row.Scan]: [&user.ID] ... [&user.UpdatedAt], [&lastLogin]. *)
Definition users_columns : list (string * ColumnType) :=
  [ ("id", UInt64); ("username", String_); ("email", String_);
    ("password", String_); ("role", String_); ("is_active", UInt8);
    ("created_at", DateTime); ("updated_at", DateTime);
    ("last_login", Nullable DateTime) ].
Definition user_dest : list Dest :=
  [ ptr_int64; ptr_string; ptr_string; ptr_string; ptr_string; ptr_bool;
    ptr_Time; ptr_Time; ptr_ptr_Time ].

(** The SELECT of GetUsers leaves the password out. *)
Definition listed_columns : list (string * ColumnType) :=
  [ ("id", UInt64); ("username", String_); ("email", String_);
    ("role", String_); ("is_active", UInt8);
    ("created_at", DateTime); ("updated_at", DateTime);
    ("last_login", Nullable DateTime) ].
Definition listed_dest : list Dest :=
  [ ptr_int64; ptr_string; ptr_string; ptr_string; ptr_bool;
    ptr_Time; ptr_Time; ptr_ptr_Time ].

(** The count of the rows is a [UInt64]; it is scanned into [var total int64]. *)
Definition count_columns : list (string * ColumnType) := [ ("count()", UInt64) ].
Definition count_dest : list Dest := [ ptr_int64 ].

(** A [time.Time] among the arguments of a statement is sent as
    [toDateTime] of [t.Unix()]: a [DateTime] column receives whole
    seconds.  (The range of the column, 1970 to 2106, is not modelled.) *)
Definition toDateTime (t : Time) : Time := Unix t * Second.

(** *** The table users *)

(** What ClickHouse stores in a [UInt64] column that an INSERT does not
    list and the table gives no DEFAULT for. *)
Definition column_default_id : Z := 0.

(** [SELECT ... FROM users WHERE <col> = ? LIMIT 1]: the first row that
    matches. *)
Definition select_by_id (userID : Z) (rows : list User) : option User :=
  find (fun r => ID r =? userID) rows.
Definition select_by_username (username : string) (rows : list User) : option User :=
  find (fun r => String.eqb (Username r) username) rows.
Definition select_by_email (email : string) (rows : list User) : option User :=
  find (fun r => String.eqb (Email r) email) rows.

(** [row.Scan(&user.ID, ...)] after [QueryRow]: [sql.ErrNoRows] without
    a row, and with one what [scan] makes of it. *)
Definition QueryRow_Scan (sel : list User -> option User) : M (Result User) :=
  ok <- conn_call ;;
  if ok then
    rows <- get_users ;;
    match sel rows with
    | Some r =>
        match scan users_columns user_dest with
        | Some e => ret (Err e)
        | None => ret (Ok r)
        end
    | None => ret (Err sql_ErrNoRows)
    end
  else ret (Err driver_error).

(** InsertUser: the identifier is drawn from the clock and returned, the
    INSERT lists the columns username, email, password, role, is_active,
    created_at, updated_at. *)
Definition InsertUser (user : User) : M (Result Z) :=
  t <- time_Now ;;
  let userID := UnixNano t in
  ok <- conn_call ;;
  if ok then
    rows <- get_users ;;
    put_users (rows ++ [mkUser column_default_id (Username user) (Email user)
                               (Password user) (Role user) (IsActive user)
                               (toDateTime (CreatedAt user))
                               (toDateTime (UpdatedAt user)) None]) ;;;
    ret (Ok userID)
  else ret (Err driver_error).

Definition GetUserByID (userID : Z) : M (Result User) :=
  QueryRow_Scan (select_by_id userID).

Definition GetUserByUsername (username : string) : M (Result User) :=
  QueryRow_Scan (select_by_username username).

Definition GetUserByEmail (email : string) : M (Result User) :=
  QueryRow_Scan (select_by_email email).

(** [ALTER TABLE users UPDATE username = ?, email = ?, role = ?,
    is_active = ?, updated_at = ? WHERE id = ?] *)
Definition UpdateUser (user : User) : M (option error) :=
  ok <- conn_call ;;
  if ok then
    rows <- get_users ;;
    put_users (map (fun r =>
                 if ID r =? ID user
                 then mkUser (ID r) (Username user) (Email user) (Password r)
                             (Role user) (IsActive user) (CreatedAt r)
                             (toDateTime (UpdatedAt user)) (LastLogin r)
                 else r) rows) ;;;
    ret None
  else ret (Some driver_error).

(** [ALTER TABLE users UPDATE last_login = ?, updated_at = ? WHERE id = ?] *)
Definition UpdateUserLastLogin (userID : Z) (lastLogin : Time) : M (option error) :=
  t <- time_Now ;;
  ok <- conn_call ;;
  if ok then
    rows <- get_users ;;
    put_users (map (fun r =>
                 if ID r =? userID
                 then set_UpdatedAt (set_LastLogin r (Some (toDateTime lastLogin)))
                                    (toDateTime t)
                 else r) rows) ;;;
    ret None
  else ret (Some driver_error).

(** [ALTER TABLE users UPDATE password = ?, updated_at = ? WHERE id = ?] *)
Definition UpdateUserPassword (userID : Z) (hashedPassword : string) : M (option error) :=
  t <- time_Now ;;
  ok <- conn_call ;;
  if ok then
    rows <- get_users ;;
    put_users (map (fun r =>
                 if ID r =? userID
                 then set_UpdatedAt (set_Password r hashedPassword) (toDateTime t)
                 else r) rows) ;;;
    ret None
  else ret (Some driver_error).

(** [ALTER TABLE users DELETE WHERE id = ?] *)
Definition DeleteUser (userID : Z) : M (option error) :=
  ok <- conn_call ;;
  if ok then
    rows <- get_users ;;
    put_users (filter (fun r => negb (ID r =? userID)) rows) ;;;
    ret None
  else ret (Some driver_error).

(** [ORDER BY created_at DESC]: insertion into a list that is already
    in descending order of creation time. *)
Fixpoint insert_desc (u : User) (l : list User) : list User :=
  match l with
  | [] => [u]
  | v :: l' => if CreatedAt v <=? CreatedAt u then u :: l
               else v :: insert_desc u l'
  end.

Fixpoint order_by_created_at_desc (l : list User) : list User :=
  match l with
  | [] => []
  | u :: l' => insert_desc u (order_by_created_at_desc l')
  end.

(** [WHERE role = ?], present only for a non-empty role. *)
Definition where_role (role : string) (rows : list User) : list User :=
  if String.eqb role "" then rows
  else filter (fun r => String.eqb (Role r) role) rows.

(** The SELECT of GetUsers lists every column but the password. *)
Definition scan_listed (r : User) : User := set_Password r "".

(** GetUsers: the count and its [Scan(&total)], the page and the
    [rows.Scan] of each of its rows, the number of pages.  A negative
    LIMIT or OFFSET is taken to be refused by the server; a zero page
    size would make the final division panic. *)
Definition GetUsers (page perPage : Z) (role : string) : M (Result UserListResponse) :=
  let offset := wrap64 (wrap64 (page - 1) * perPage) in
  ok <- conn_call ;;
  if negb ok then ret (Err driver_error) else
  rows <- get_users ;;
  match scan count_columns count_dest with
  | Some e => ret (Err e)
  | None =>
  let total := Z.of_nat (List.length (where_role role rows)) in
  ok <- conn_call ;;
  if negb ok then ret (Err driver_error) else
  if (perPage <? 0) || (offset <? 0) then ret (Err driver_error) else
  rows <- get_users ;;
  let selected := firstn (Z.to_nat perPage)
                    (skipn (Z.to_nat offset)
                       (order_by_created_at_desc (where_role role rows))) in
  match selected, scan listed_columns listed_dest with
  | _ :: _, Some e => ret (Err e)
  | _, _ =>
  let users := map scan_listed selected in
  if perPage =? 0 then ret (Panic "runtime error: integer divide by zero") else
  let totalPages := quo64 (wrap64 (wrap64 (total + perPage) - 1)) perPage in
  ret (Ok (mkUserListResponse users total page perPage totalPages))
  end end.

End database.

(* ================================================================= *)
(** ** github.com/golang-jwt/jwt/v5 and golang.org/x/crypto/bcrypt

    The two libraries the service is written against.  The keyed hash
    and the password hash are left abstract ([Primitives]); the token
    pipeline around them (signing input, signature comparison, JSON
    numbers read as float64, the validation of [exp] and [nbf]) is
    written out. *)

Module jwt.
Import Go world.
Local Open Scope go_scope.

Inductive SigningMethod :=
| HS256 | HS384 | HS512          (* *SigningMethodHMAC *)
| OtherMethod (alg : string).    (* RS256, ES256, none, ... *)

Definition is_SigningMethodHMAC (m : SigningMethod) : bool :=
  match m with
  | OtherMethod _ => false
  | _ => true
  end.

(** The values a [MapClaims] holds ([interface{}]). *)
Inductive Value :=
| VInt64 (z : Z)
| VFloat64 (f : Z)       (* an integral float64, see [Go.float64_of_int] *)
| VString (s : string)
| VOther.

(** [MapClaims]: a map written as the list of its entries; every key
    occurs once in the maps this service builds. *)
Definition MapClaims := list (string * Value).

Fixpoint lookup (key : string) (m : MapClaims) : option Value :=
  match m with
  | [] => None
  | (k, v) :: m' => if String.eqb k key then Some v else lookup key m'
  end.

(** The JSON text of a claim: an integer numeral, a string, or anything
    else (fractional numerals are outside the model: the service writes
    none). *)
Inductive json :=
| JNumber (z : Z)
| JString (s : string)
| JOther.

(** A compact token [header.payload.signature], kept as what its three
    base64url segments decode to; [Garbled] stands for every text that
    does not split and decode that way.  base64url and the JSON text
    are injective encodings and are not modelled further. *)
Record Segments := mkSegments {
  seg_alg : SigningMethod;
  seg_claims : list (string * json);
  seg_signature : string }.

Inductive TokenString :=
| Compact (s : Segments)
| Garbled.

Record Token := mkToken {
  Method : SigningMethod;
  Claims : MapClaims;
  Valid : bool }.

Class Primitives := {
  (** HMAC with the hash of the method, over the signing input
      [b64(header) + "." + b64(payload)]. *)
  HMAC : SigningMethod -> string -> SigningMethod * list (string * json) -> string;
  (** [bcrypt.GenerateFromPassword], given its salt. *)
  bcrypt_GenerateFromPassword : list Z -> string -> Z -> Result string;
  (** [bcrypt.CompareHashAndPassword(hash, password)]: [None] is [nil]. *)
  bcrypt_CompareHashAndPassword : string -> string -> option error }.

Definition bcrypt_DefaultCost : Z := 10.

(** [json.Marshal] of a claim value. *)
Definition json_Marshal (v : Value) : json :=
  match v with
  | VInt64 z => JNumber z
  | VFloat64 f => JNumber f
  | VString s => JString s
  | VOther => JOther
  end.

(** [json.Unmarshal] of a claim into an [interface{}]; a numeral too
    large for a float64 is an error. *)
Definition json_Unmarshal (j : json) : option Value :=
  match j with
  | JNumber z => if float64_overflows z then None
                 else Some (VFloat64 (float64_of_int z))
  | JString s => Some (VString s)
  | JOther => Some VOther
  end.

Fixpoint decode_claims (js : list (string * json)) : option MapClaims :=
  match js with
  | [] => Some []
  | (k, j) :: js' =>
      match json_Unmarshal j, decode_claims js' with
      | Some v, Some m => Some ((k, v) :: m)
      | _, _ => None
      end
  end.

(** [jwt.NewWithClaims(method, claims)] *)
Definition NewWithClaims (method : SigningMethod) (claims : MapClaims) : Token :=
  mkToken method claims false.

(** [token.SignedString(key)] with a [[]byte] key, which only the HMAC
    methods accept. *)
Definition SignedString `{Primitives} (t : Token) (key : string) : Result TokenString :=
  if is_SigningMethodHMAC (Method t) then
    let payload := map (fun kv => (fst kv, json_Marshal (snd kv))) (Claims t) in
    Ok (Compact (mkSegments (Method t) payload
                            (HMAC (Method t) key (Method t, payload))))
  else Err (jwt_error [ErrInvalidKeyType]).

(** [MapClaims.parseNumericDate(key)]: an absent claim and a zero are
    both "no date". *)
Definition parseNumericDate (key : string) (m : MapClaims) : Result (option Time) :=
  match lookup key m with
  | None => Ok None
  | Some (VFloat64 f) =>
      if f =? 0 then Ok None
      else Ok (Some (time_Unix (int64_of_float64 f) 0))
  | Some _ => Err (jwt_error [ErrInvalidType])
  end.

(** The default validator: [exp] (not required) and [nbf], no leeway;
    [iat], [aud], [iss] and [sub] are not checked by default. *)
Definition verifyExpiresAt (m : MapClaims) (cmp : Time) : list jwt_sentinel :=
  match parseNumericDate "exp" m with
  | Ok None => []
  | Ok (Some exp) => if Before cmp exp then [] else [ErrTokenExpired]
  | _ => [ErrInvalidType]
  end.

Definition verifyNotBefore (m : MapClaims) (cmp : Time) : list jwt_sentinel :=
  match parseNumericDate "nbf" m with
  | Ok None => []
  | Ok (Some nbf) => if negb (Before cmp nbf) then [] else [ErrTokenNotValidYet]
  | _ => [ErrInvalidType]
  end.

Definition Validate (m : MapClaims) : M (list jwt_sentinel) :=
  now <- time_Now ;;
  ret ((verifyExpiresAt m now ++ verifyNotBefore m now)%list).

(** [jwt.Parse(tokenString, keyFunc)]: decode, ask for the key, check
    the signature, validate the claims. *)
Definition Parse `{Primitives} (tokenString : TokenString)
           (keyFunc : Token -> Result string) : M (Result Token) :=
  match tokenString with
  | Garbled => ret (Err (jwt_error [ErrTokenMalformed]))
  | Compact s =>
      match decode_claims (seg_claims s) with
      | None => ret (Err (jwt_error [ErrTokenMalformed]))
      | Some claims =>
          let token := mkToken (seg_alg s) claims false in
          match keyFunc token with
          | Err _ => ret (Err (jwt_error [ErrTokenUnverifiable]))
          | Panic msg => ret (Panic msg)
          | Ok key =>
              if negb (String.eqb (seg_signature s)
                         (HMAC (seg_alg s) key (seg_alg s, seg_claims s)))
              then ret (Err (jwt_error [ErrTokenSignatureInvalid]))
              else
                errs <- Validate claims ;;
                match errs with
                | [] => ret (Ok (mkToken (seg_alg s) claims true))
                | _ => ret (Err (jwt_error (ErrTokenInvalidClaims :: errs)))
                end
          end
      end
  end.

End jwt.

(* ================================================================= *)
(** ** package services (AuthService) *)

Module services.
Import Go models world jwt.
Local Open Scope go_scope.

(** The [clickhouse] handle of the service is the [World]. *)
Record AuthService := mkAuthService {
  jwtSecret : string;
  jwtExpire : Z }.

Record LoginResponse := mkLoginResponse {
  Token : TokenString;
  ExpiresAt : Time;
  User : models.User }.

(** [hex.EncodeToString] *)
Definition hex_digit (n : Z) : ascii :=
  match n with
  | 0 => "0" | 1 => "1" | 2 => "2" | 3 => "3" | 4 => "4" | 5 => "5"
  | 6 => "6" | 7 => "7" | 8 => "8" | 9 => "9" | 10 => "a" | 11 => "b"
  | 12 => "c" | 13 => "d" | 14 => "e" | _ => "f"
  end%char.

Fixpoint hex_EncodeToString (bytes : list Z) : string :=
  match bytes with
  | [] => ""
  | b :: bs => String (hex_digit (Z.shiftr (Z.land b 255) 4))
                 (String (hex_digit (Z.land b 15)) (hex_EncodeToString bs))
  end.

Definition generateJTI : M string :=
  bytes <- rand_Read 16 ;;
  ret (hex_EncodeToString bytes).

Definition NewAuthService (jwtSecret : string) (jwtExpire : Z) : AuthService :=
  mkAuthService jwtSecret jwtExpire.

Definition GetUserByID (s : AuthService) := database.GetUserByID.
Definition GetUserByUsername (s : AuthService) := database.GetUserByUsername.
Definition GetUserByEmail (s : AuthService) := database.GetUserByEmail.

Section WithPrimitives.
Context `{Primitives}.

Definition Register (s : AuthService) (req : UserCreateRequest) : M (Result models.User) :=
  existingUser <- GetUserByUsername s (create_Username req) ;;
  match existingUser with
  | Ok _ =>
      ret (Err (Errorf ("user with username " ++ create_Username req ++ " already exists")))
  | _ =>
  existingEmail <- GetUserByEmail s (create_Email req) ;;
  match existingEmail with
  | Ok _ =>
      ret (Err (Errorf ("user with email " ++ create_Email req ++ " already exists")))
  | _ =>
  salt <- rand_Read 16 ;;
  match bcrypt_GenerateFromPassword salt (create_Password req) bcrypt_DefaultCost with
  | Err e => ret (Err (Errorf_w "failed to hash password" e))
  | Panic msg => ret (Panic msg)
  | Ok hashedPassword =>
  let role := if String.eqb (create_Role req) "" then "user" else create_Role req in
  createdAt <- time_Now ;;
  updatedAt <- time_Now ;;
  let user := mkUser 0 (create_Username req) (create_Email req) hashedPassword
                     role true createdAt updatedAt None in
  inserted <- database.InsertUser user ;;
  match inserted with
  | Err e => ret (Err (Errorf_w "failed to create user" e))
  | Panic msg => ret (Panic msg)
  | Ok userID => ret (Ok (set_Password (set_ID user userID) ""))
  end end end end.

Definition GenerateJWT (s : AuthService) (userID : Z) (username role : string)
  : M (Result (TokenString * Time)) :=
  now <- time_Now ;;
  let expiresAt := Add now (Duration_mul (jwtExpire s) Hour) in
  jti <- generateJTI ;;
  let claims := [ ("user_id", VInt64 userID);
                  ("username", VString username);
                  ("role", VString role);
                  ("exp", VInt64 (Unix expiresAt));
                  ("iat", VInt64 (Unix now));
                  ("jti", VString jti) ] in
  let token := NewWithClaims HS256 claims in
  match SignedString token (jwtSecret s) with
  | Ok tokenString => ret (Ok (tokenString, expiresAt))
  | Err e => ret (Err e)
  | Panic msg => ret (Panic msg)
  end.

Definition ValidateJWT (s : AuthService) (tokenString : TokenString)
  : M (Result JWTPayload) :=
  parsed <- Parse tokenString (fun token =>
              if negb (is_SigningMethodHMAC (Method token))
              then Err (Errorf "unexpected signing method")
              else Ok (jwtSecret s)) ;;
  match parsed with
  | Err e => ret (Err (Errorf_w "invalid token" e))
  | Panic msg => ret (Panic msg)
  | Ok token =>
  if negb (Valid token) then ret (Err (Errorf "token is not valid")) else
  let claims := Claims token in
  match lookup "user_id" claims with
  | Some (VFloat64 userID) =>
  match lookup "username" claims with
  | Some (VString username) =>
  match lookup "role" claims with
  | Some (VString role) =>
  match lookup "exp" claims with
  | Some (VFloat64 exp) =>
  match lookup "iat" claims with
  | Some (VFloat64 iat) =>
      ret (Ok (mkJWTPayload (int64_of_float64 userID) username role
                            (int64_of_float64 exp) (int64_of_float64 iat)))
  | _ => ret (Err (Errorf "invalid iat in token")) end
  | _ => ret (Err (Errorf "invalid exp in token")) end
  | _ => ret (Err (Errorf "invalid role in token")) end
  | _ => ret (Err (Errorf "invalid username in token")) end
  | _ => ret (Err (Errorf "invalid user_id in token")) end
  end.

Definition Login (s : AuthService) (req : LoginRequest) : M (Result LoginResponse) :=
  found <- GetUserByUsername s (login_Username req) ;;
  match found with
  | Err _ => ret (Err (Errorf "invalid credentials"))
  | Panic msg => ret (Panic msg)
  | Ok user =>
  if negb (IsActive user) then ret (Err (Errorf "account is disabled")) else
  match bcrypt_CompareHashAndPassword (Password user) (login_Password req) with
  | Some _ => ret (Err (Errorf "invalid credentials"))
  | None =>
  issued <- GenerateJWT s (ID user) (Username user) (Role user) ;;
  match issued with
  | Err e => ret (Err (Errorf_w "failed to generate token" e))
  | Panic msg => ret (Panic msg)
  | Ok (token, expiresAt) =>
  now <- time_Now ;;
  database.UpdateUserLastLogin (ID user) now ;;;
  ret (Ok (mkLoginResponse token expiresAt
             (set_Password (set_LastLogin user (Some now)) "")))
  end end end.

Definition UpdateUser (s : AuthService) (userID : Z) (req : UserUpdateRequest)
  : M (Result models.User) :=
  found <- GetUserByID s userID ;;
  match found with
  | Err e => ret (Err (Errorf_w "user not found" e))
  | Panic msg => ret (Panic msg)
  | Ok user =>
  (* if req.Username != "" *)
  named <- (if String.eqb (update_Username req) "" then ret (Ok user) else
            existingUser <- GetUserByUsername s (update_Username req) ;;
            match existingUser with
            | Ok existing =>
                if negb (ID existing =? userID)
                then ret (Err (Errorf ("username " ++ update_Username req
                                         ++ " is already taken")))
                else ret (Ok (set_Username user (update_Username req)))
            | _ => ret (Ok (set_Username user (update_Username req)))
            end) ;;
  match named with
  | Err e => ret (Err e)
  | Panic msg => ret (Panic msg)
  | Ok user =>
  (* if req.Email != "" *)
  mailed <- (if String.eqb (update_Email req) "" then ret (Ok user) else
             existingUser <- GetUserByEmail s (update_Email req) ;;
             match existingUser with
             | Ok existing =>
                 if negb (ID existing =? userID)
                 then ret (Err (Errorf ("email " ++ update_Email req
                                          ++ " is already taken")))
                 else ret (Ok (set_Email user (update_Email req)))
             | _ => ret (Ok (set_Email user (update_Email req)))
             end) ;;
  match mailed with
  | Err e => ret (Err e)
  | Panic msg => ret (Panic msg)
  | Ok user =>
  let user := if String.eqb (update_Role req) "" then user
              else set_Role user (update_Role req) in
  let user := match update_IsActive req with
              | Some b => set_IsActive user b
              | None => user
              end in
  now <- time_Now ;;
  let user := set_UpdatedAt user now in
  err <- database.UpdateUser user ;;
  match err with
  | Some e => ret (Err (Errorf_w "failed to update user" e))
  | None => ret (Ok (set_Password user ""))
  end end end end.

Definition ChangePassword (s : AuthService) (userID : Z)
           (req : UserChangePasswordRequest) : M (Result unit) :=
  found <- GetUserByID s userID ;;
  match found with
  | Err e => ret (Err (Errorf_w "user not found" e))
  | Panic msg => ret (Panic msg)
  | Ok user =>
  match bcrypt_CompareHashAndPassword (Password user) (CurrentPassword req) with
  | Some _ => ret (Err (Errorf "current password is incorrect"))
  | None =>
  salt <- rand_Read 16 ;;
  match bcrypt_GenerateFromPassword salt (NewPassword req) bcrypt_DefaultCost with
  | Err e => ret (Err (Errorf_w "failed to hash new password" e))
  | Panic msg => ret (Panic msg)
  | Ok hashedPassword =>
  err <- database.UpdateUserPassword userID hashedPassword ;;
  match err with
  | Some e => ret (Err (Errorf_w "failed to update password" e))
  | None => ret (Ok tt)
  end end end end.

Definition GetUsers (s : AuthService) (page perPage : Z) (role : string)
  : M (Result UserListResponse) :=
  database.GetUsers page perPage role.

Definition DeleteUser (s : AuthService) (userID : Z) : M (option error) :=
  err <- database.DeleteUser userID ;;
  match err with
  | Some e => ret (Some (Errorf_w "failed to delete user" e))
  | None => ret None
  end.

End WithPrimitives.

End services.

(* ================================================================= *)
(** ** github.com/labstack/echo/v4: the request context *)

Module echo.
Import Go models world.

(** Values kept under [c.Set] ([interface{}]). *)
Inductive Any :=
| AInt64 (z : Z)
| AString (s : string).

(** What [interface{}] data a response carries. *)
Inductive Data :=
| NoData
| DataUsers (d : UserListResponse).

(** The JSON body of a response: [models.APIResponse], and the
    [map[string]interface{}] with the keys "success" and "error" that
    the middleware writes. *)
Record APIResponse := mkAPIResponse {
  Success : bool;
  ResponseData : Data;
  Error : string;
  Message : string }.

Definition error_body (msg : string) : APIResponse :=
  mkAPIResponse false NoData msg "".

(** - [Authorization]: the header of the request, empty when absent;
    - [query]: the query parameters;
    - [store]: the values bound with [c.Set], the latest first;
    - [response]: status code and body once written. *)
Record Context := mkContext {
  Authorization : string;
  query : list (string * string);
  store : list (string * Any);
  response : option (Z * APIResponse) }.

Definition HandlerFunc := Context -> M (Result Context).

Fixpoint assoc {V} (key : string) (l : list (string * V)) : option V :=
  match l with
  | [] => None
  | (k, v) :: l' => if String.eqb k key then Some v else assoc key l'
  end.

Definition Get (c : Context) (key : string) : option Any := assoc key (store c).

Definition Set_ (c : Context) (key : string) (val : Any) : Context :=
  mkContext (Authorization c) (query c) ((key, val) :: store c) (response c).

Definition QueryParam (c : Context) (name : string) : string :=
  match assoc name (query c) with
  | Some v => v
  | None => ""
  end.

(** [c.JSON(code, body)] *)
Definition JSON (c : Context) (code : Z) (body : APIResponse) : M (Result Context) :=
  ret (Ok (mkContext (Authorization c) (query c) (store c) (Some (code, body)))).

Definition StatusOK : Z := 200.
Definition StatusUnauthorized : Z := 401.
Definition StatusForbidden : Z := 403.
Definition StatusInternalServerError : Z := 500.

End echo.

(* ================================================================= *)
(** ** package middleware: the JWT gate *)

Module middleware.
Import Go models world jwt echo.
Local Open Scope go_scope.

Definition Skipper := Context -> bool.
Definition DefaultSkipper : Skipper := fun _ => false.

(** [Skipper] may be left nil; the constructors [JWT], [RequireAdmin]
    and [RequireUser] always provide the service. *)
Record JWTConfig := mkJWTConfig {
  config_Skipper : option Skipper;
  config_AuthService : services.AuthService;
  RequiredRole : string }.

(** [strings.TrimPrefix(s, "Bearer ")] for an [s] with that prefix. *)
Definition TrimPrefix_Bearer (s : string) : string :=
  substring 7 (String.length s - 7) s.

Section Gate.
Context `{Primitives}.
(** The segments the text of a token splits and decodes into. *)
Variable segments_of : string -> TokenString.

Definition JWTWithConfig (config : JWTConfig) (next : HandlerFunc) : HandlerFunc :=
  fun c =>
  let skipper := match config_Skipper config with
                 | None => DefaultSkipper
                 | Some f => f
                 end in
  if skipper c then next c else
  let authHeader := Authorization c in
  if String.eqb authHeader "" then
    JSON c StatusUnauthorized (error_body "Missing Authorization header") else
  if negb (prefix "Bearer " authHeader) then
    JSON c StatusUnauthorized (error_body "Invalid Authorization header format") else
  let token := TrimPrefix_Bearer authHeader in
  if String.eqb token "" then
    JSON c StatusUnauthorized (error_body "Empty token") else
  validated <- services.ValidateJWT (config_AuthService config) (segments_of token) ;;
  match validated with
  | Err _ => JSON c StatusUnauthorized (error_body "Invalid token")
  | Panic msg => ret (Panic msg)
  | Ok payload =>
      if negb (String.eqb (RequiredRole config) "")
         && negb (String.eqb (payload_Role payload) (RequiredRole config))
      then JSON c StatusForbidden (error_body "Insufficient permissions")
      else
        let c := Set_ c "user_id" (AInt64 (UserID payload)) in
        let c := Set_ c "username" (AString (payload_Username payload)) in
        let c := Set_ c "user_role" (AString (payload_Role payload)) in
        next c
  end.

Definition JWT (authService : services.AuthService) :=
  JWTWithConfig (mkJWTConfig (Some DefaultSkipper) authService "").

Definition RequireAdmin (authService : services.AuthService) :=
  JWTWithConfig (mkJWTConfig (Some DefaultSkipper) authService "admin").

Definition RequireUser (authService : services.AuthService) :=
  JWTWithConfig (mkJWTConfig (Some DefaultSkipper) authService "").

End Gate.

End middleware.

(* ================================================================= *)
(** ** package handlers (AuthHandler) *)

Module handlers.
Import Go models world jwt echo.
Local Open Scope go_scope.

(** [strconv.Atoi]: an optional sign and decimal digits.  A syntax
    error yields 0, a value out of range the nearest int. *)
Definition digit_of (ch : ascii) : option Z :=
  let d := Z.of_N (N_of_ascii ch) - 48 in
  if (0 <=? d) && (d <=? 9) then Some d else None.

Fixpoint digits (s : string) (acc : Z) : option Z :=
  match s with
  | EmptyString => Some acc
  | String ch s' =>
      match digit_of ch with
      | Some d => digits s' (10 * acc + d)
      | None => None
      end
  end.

Definition strconv_Atoi (s : string) : Z * option error :=
  let syntax := Some (Errorf "strconv.Atoi: invalid syntax") in
  let range := Some (Errorf "strconv.Atoi: value out of range") in
  match s with
  | EmptyString => (0, syntax)
  | String ch rest =>
      let neg := Ascii.eqb ch "-" in
      let body := if neg || Ascii.eqb ch "+" then rest else s in
      match body with
      | EmptyString => (0, syntax)
      | _ =>
          match digits body 0 with
          | None => (0, syntax)
          | Some n =>
              let v := if neg then - n else n in
              if v <? MinInt64 then (MinInt64, range)
              else if MaxInt64 <? v then (MaxInt64, range)
              else (v, None)
          end
      end
  end.

Record AuthHandler := mkAuthHandler {
  authService : services.AuthService }.

(** The body of GetUsers, over the method it calls with the page, the
    page size and the role ([h.authService.GetUsers]). *)
Definition GetUsers_calling (GetUsers : Z -> Z -> string -> M (Result UserListResponse))
  : HandlerFunc := fun c =>
  let is_admin := match Get c "user_role" with
                  | Some (AString userRole) => String.eqb userRole "admin"
                  | _ => false
                  end in
  if negb is_admin then
    JSON c StatusForbidden (error_body "Access denied - admin role required") else
  let page := fst (strconv_Atoi (QueryParam c "page")) in
  let page := if page <? 1 then 1 else page in
  let perPage := fst (strconv_Atoi (QueryParam c "per_page")) in
  let perPage := if (perPage <? 1) || (100 <? perPage) then 10 else perPage in
  let role := QueryParam c "role" in
  listed <- GetUsers page perPage role ;;
  match listed with
  | Err _ => JSON c StatusInternalServerError (error_body "Failed to get users")
  | Panic msg => ret (Panic msg)
  | Ok users => JSON c StatusOK (mkAPIResponse true (DataUsers users) "" "")
  end.

Definition GetUsers (h : AuthHandler) : HandlerFunc :=
  GetUsers_calling (services.GetUsers (authService h)).

End handlers.

(* ================================================================= *)
(** ** package routes: the protected groups of SetupRoutes *)

Module routes.
Import Go models world jwt echo.

Section Routes.
Context `{Primitives}.
Variable segments_of : string -> TokenString.

(** [services.NewAuthService(clickhouse, jwtSecret, 24)] *)
Definition authService (jwtSecret : string) : services.AuthService :=
  services.NewAuthService jwtSecret 24.

Definition authHandler (jwtSecret : string) : handlers.AuthHandler :=
  handlers.mkAuthHandler (authService jwtSecret).

(** [authProtected.Use(middleware.JWT(authService))]: a handler of the
    group of the profile routes. *)
Definition authProtected (jwtSecret : string) (handler : HandlerFunc) : HandlerFunc :=
  middleware.JWT segments_of (authService jwtSecret) handler.

(** [admin.Use(middleware.RequireAdmin(authService))];
    [admin.GET("/users", authHandler.GetUsers)] *)
Definition admin_users (jwtSecret : string) : HandlerFunc :=
  middleware.RequireAdmin segments_of (authService jwtSecret)
    (handlers.GetUsers (authHandler jwtSecret)).

End Routes.

End routes.

(* ================================================================= *)
(** ** Concrete data for the examples *)

Module example.
Import Go models world jwt echo.

(** Stand-ins for the two hash functions: the "signature" is the key
    followed by the algorithm family, the "password hash" the password
    behind a bcrypt-like tag. *)
Definition plain_HMAC (m : SigningMethod) (key : string)
           (input : SigningMethod * list (string * json)) : string :=
  (key ++ match m with HS256 => "/256" | HS384 => "/384" | HS512 => "/512"
          | OtherMethod _ => "/-" end)%string.

Definition plain_hash (salt : list Z) (password : string) (cost : Z) : Result string :=
  Ok ("$2a$" ++ password)%string.

Definition plain_compare (hash password : string) : option error :=
  if String.eqb hash ("$2a$" ++ password)
  then None
  else Some (bcrypt_error "hashedPassword is not the hash of the given password").

Definition plain : Primitives :=
  {| HMAC := plain_HMAC;
     bcrypt_GenerateFromPassword := plain_hash;
     bcrypt_CompareHashAndPassword := plain_compare |}.

Definition svc : services.AuthService := services.mkAuthService "s3cret" 24.

(** 14 November 2023, 22:13:20 UTC, and one nanosecond. *)
Definition t0 : Time := 1700000000000000001.

Definition alice_req : UserCreateRequest :=
  mkUserCreateRequest "alice" "alice@x.com" "secret1" "".

(** Three rows created by hand (with identifiers) in the summer of 2023. *)
Definition alice : User :=
  mkUser 7 "alice" "alice@x.com" "$2a$secret1" "user" true
         (1690000100 * Second) (1690000100 * Second) None.
Definition bob : User :=
  mkUser 8 "bob" "bob@x.com" "$2a$hunter2" "user" false
         (1690000200 * Second) (1690000200 * Second) None.
Definition carol : User :=
  mkUser 9 "carol" "carol@x.com" "$2a$pa55word" "admin" true
         (1690000300 * Second) (1690000300 * Second) None.

Definition empty_world : World := mkWorld [] [] t0 [t0 + 1; t0 + 2] [].
Definition small_world : World := mkWorld [alice; bob; carol] [] t0 [] [].
(** The same table behind a connection whose next two calls fail. *)
Definition flaky_world : World := mkWorld [alice; bob; carol] [true; true] t0 [] [].

Definition admin_token : TokenString :=
  Compact (mkSegments HS256
             [ ("user_id", JNumber 9); ("username", JString "carol");
               ("role", JString "admin"); ("exp", JNumber 1700086400);
               ("iat", JNumber 1700000000); ("jti", JString "00") ]
             "s3cret/256").
Definition user_token : TokenString :=
  Compact (mkSegments HS256
             [ ("user_id", JNumber 7); ("username", JString "alice");
               ("role", JString "user"); ("exp", JNumber 1700086400);
               ("iat", JNumber 1700000000); ("jti", JString "01") ]
             "s3cret/256").

(** A reader of token texts that knows the two tokens above. *)
Definition segments_of (text : string) : TokenString :=
  if String.eqb text "carol.token" then admin_token
  else if String.eqb text "alice.token" then user_token
  else Garbled.

Definition request (authorization : string) (q : list (string * string)) : Context :=
  mkContext authorization q [] None.

(** A downstream handler that answers 200 with an empty body. *)
Definition done : HandlerFunc := fun c =>
  JSON c StatusOK (mkAPIResponse true NoData "" "ok").

End example.


(* ================================================================= *)
(** ** package config: what a loaded configuration has passed *)

Module config.
Import Go.

Record ClickHouseConfig := mkClickHouseConfig {
  db_Host : string;
  db_Port : Z;
  db_User : string;
  db_Database : string }.

Record JWTConfig := mkJWTConfig {
  Secret : string;
  ExpireHours : Z }.

Record Config := mkConfig {
  Database : ClickHouseConfig;
  Server_Port : string;
  JWT : JWTConfig }.

Definition validateConfig (config : Config) : option error :=
  if String.eqb (db_Host (Database config)) "" then
    Some (Errorf "database host is required")
  else if (db_Port (Database config) <=? 0) || (65535 <? db_Port (Database config)) then
    Some (Errorf "database port must be between 1 and 65535")
  else if String.eqb (db_User (Database config)) "" then
    Some (Errorf "database user is required")
  else if String.eqb (db_Database (Database config)) "" then
    Some (Errorf "database name is required")
  else if String.eqb (Server_Port config) "" then
    Some (Errorf "server port is required")
  else if String.eqb (Secret (JWT config)) ""
          || String.eqb (Secret (JWT config)) "your-super-secret-jwt-key-here" then
    Some (Errorf "JWT secret must be set to a secure value")
  else if ExpireHours (JWT config) <=? 0 then
    Some (Errorf "JWT expire hours must be greater than 0")
  else None.

End config.

(* ================================================================= *)
(** ** Vocabulary of the statements *)

Module observe.
Import Go models world jwt.

(** The [exp] numeral written in the payload of a token. *)
Definition embedded_expiry (tokenString : TokenString) : option Z :=
  match tokenString with
  | Compact s =>
      match echo.assoc "exp" (seg_claims s) with
      | Some (JNumber z) => Some z
      | _ => None
      end
  | Garbled => None
  end.

(** The number of hours is one whose nanoseconds a [time.Duration] holds. *)
Definition fits_Duration (hours : Z) : Prop := in_int64 (hours * Hour).

(** A clock reading between the epoch and the last instant [UnixNano]
    can express (11 April 2262). *)
Definition clock_in_range (t : Time) : Prop := 0 <= t <= MaxInt64.

(** The payload ValidateJWT reads back from a token GenerateJWT wrote at
    time [t] for a service of [h] hours: the identifier has gone through
    a float64. *)
Definition issued_payload (userID : Z) (username role : string) (t : Time) (h : Z)
  : JWTPayload :=
  mkJWTPayload (int64_of_float64 (float64_of_int userID)) username role
               (Unix t + 3600 * h) (Unix t).

(** The two errors of the uniqueness checks of Register. *)
Definition duplicate_username (req : UserCreateRequest) : error :=
  Errorf ("user with username " ++ create_Username req ++ " already exists").
Definition duplicate_email (req : UserCreateRequest) : error :=
  Errorf ("user with email " ++ create_Email req ++ " already exists").

(** The error of a [Scan] that is to put the [UInt64] column [column]
    into an int64. *)
Definition conversion_refused (column : string) : error :=
  ColumnConverterError column "UInt64" "*int64".

(** An instant within the range of a [DateTime] column (to 7 February
    2106). *)
Definition in_DateTime (t : Time) : Prop := 0 <= Unix t < 2 ^ 32.

(** Descending order of creation time. *)
Definition created_desc (a b : User) : Prop := CreatedAt b <= CreatedAt a.

(** [n] is the ceiling of [total / p], for a positive [p]. *)
Definition ceiling_of (n total p : Z) : Prop := (n - 1) * p < total <= n * p.

(** The context of a request to list users that has passed the gate as
    an administrator. *)
Definition list_request (page per_page : string) : echo.Context :=
  echo.mkContext "" [("page", page); ("per_page", per_page)]
                 [("user_role", echo.AString "admin")] None.

(** A listing method that answers with an empty page carrying the
    page and the page size it was called with. *)
Definition reporting_arguments (page perPage : Z) (role : string)
  : M (Result UserListResponse) :=
  ret (Ok (mkUserListResponse [] 0 page perPage 0)).

(** The page size the handler of a list request has answered with. *)
Definition answered_PerPage (r : Result echo.Context * World) : option Z :=
  match fst r with
  | Ok c =>
      match echo.response c with
      | Some (_, body) =>
          match echo.ResponseData body with
          | echo.DataUsers d => Some (PerPage d)
          | echo.NoData => None
          end
      | None => None
      end
  | _ => None
  end.

End observe.

(* ================================================================= *)
(** ** Vocabulary and data of the further properties *)

Module vocabulary.
Import Go models world jwt.

(** A lowercase hexadecimal digit. *)
Definition is_lower_hex (c : ascii) : bool :=
  existsb (Ascii.eqb c) (list_ascii_of_string "0123456789abcdef").

End vocabulary.

Module samples.
Import Go models world jwt echo.

(** Tokens that must not pass: a signature made with another secret, an
    algorithm that is no HMAC, a numeral no float64 holds. *)
Definition forged_token : TokenString :=
  Compact (mkSegments HS256
             [ ("user_id", JNumber 9); ("username", JString "carol");
               ("role", JString "admin"); ("exp", JNumber 1700086400);
               ("iat", JNumber 1700000000); ("jti", JString "03") ]
             "guess/256").
Definition none_token : TokenString :=
  Compact (mkSegments (OtherMethod "none")
             [ ("user_id", JNumber 9); ("username", JString "carol");
               ("role", JString "admin"); ("exp", JNumber 1700086400);
               ("iat", JNumber 1700000000) ]
             "").
Definition oversized_token : TokenString :=
  Compact (mkSegments HS256 [ ("user_id", JNumber (2 ^ 1024)) ] "s3cret/256").


(** The table of the examples behind a connection whose next call fails. *)
Definition broken_world : World :=
  mkWorld [example.alice; example.bob; example.carol] [true] example.t0 [] [].

(** The same behind a connection whose third call fails. *)
Definition failing_insert_world : World :=
  mkWorld [example.alice; example.bob; example.carol] [false; false; true]
          example.t0 [] [].

End samples.

(* ================================================================= *)
(** * Properties *)

Import Go models world jwt echo observe.

Unset Implicit Arguments.

(** Unfolds the plumbing of the world monad. *)
Ltac run :=
  unfold database.GetUserByID, database.GetUserByUsername, database.GetUserByEmail,
         services.GetUserByID, services.GetUserByUsername, services.GetUserByEmail,
         database.QueryRow_Scan, bind, ret, conn_call, get_users, put_users,
         time_Now, rand_Read in *;
  cbn [fst snd users faults now later entropy] in *.

(** ** The connection and the clock *)

Lemma wrap64_small z : in_int64 z -> wrap64 z = z.
Proof.
  unfold in_int64, MinInt64, MaxInt64, wrap64. intros Hz.
  rewrite Z.mod_small by lia. lia.
Qed.

Lemma float64_of_int_exact z : Z.abs z < 2 ^ 53 -> float64_of_int z = z.
Proof.
  intros Hz. unfold float64_of_int.
  destruct (Z.ltb_spec (Z.abs z) (2 ^ 53)); [reflexivity | lia].
Qed.

Lemma float64_overflows_small z : Z.abs z < 2 ^ 64 -> float64_overflows z = false.
Proof.
  intros Hz. unfold float64_overflows. apply Z.leb_gt.
  assert (2 ^ 64 < 2 ^ 1024 - 2 ^ 970) by (vm_compute; reflexivity). lia.
Qed.

Lemma int64_of_float64_small f : in_int64 f -> int64_of_float64 f = f.
Proof.
  unfold in_int64, int64_of_float64. intros [Hlo Hhi].
  apply Z.leb_le in Hlo. apply Z.leb_le in Hhi. now rewrite Hlo, Hhi.
Qed.

Lemma time_Unix_seconds sec :
  MinInt64 - unixToInternal <= sec <= MaxInt64 - unixToInternal ->
  time_Unix sec 0 = sec * Second.
Proof.
  intros Hs. unfold time_Unix.
  rewrite wrap64_small by (unfold in_int64; lia). lia.
Qed.

(** Beyond that range the seconds wrap: the largest [exp] a float64
    holds below [2^63] is an instant long before the epoch. *)
Example time_Unix_wraps : time_Unix (2 ^ 63 - 1024) 0 < 0.
Proof. vm_compute. reflexivity. Qed.

(** The Scan of a row of the lookups and the Scan of the count, each
    refused at its first column. *)
Lemma scan_user_refused :
  database.scan database.users_columns database.user_dest
  = Some (conversion_refused "id").
Proof. reflexivity. Qed.

Lemma scan_count_refused :
  database.scan database.count_columns database.count_dest
  = Some (conversion_refused "count()").
Proof. reflexivity. Qed.

(** A lookup reads the table, changes nothing but the fault list, and
    ends in an error: of the connection, of the missing row, or of the
    Scan of the row it has found. *)
Lemma QueryRow_Scan_spec sel w :
  exists e w',
    database.QueryRow_Scan sel w = (Err e, w')
    /\ users w' = users w /\ now w' = now w /\ later w' = later w
    /\ entropy w' = entropy w
    /\ (faults w = [] ->
        w' = w /\ e = match sel (users w) with
                      | Some _ => conversion_refused "id"
                      | None => sql_ErrNoRows
                      end)
    /\ (forall fs, faults w = true :: fs -> e = driver_error).
Proof.
  run. rewrite scan_user_refused. destruct w as [us fs t l e]; cbn.
  destruct fs as [|[] fs]; cbn.
  - destruct (sel us); do 2 eexists; (split; [reflexivity|]); cbn;
      do 4 (split; [reflexivity|]);
      (split; [intros _; split; reflexivity | intros fs Hq; discriminate Hq]).
  - do 2 eexists. split; [reflexivity|]. cbn.
    do 4 (split; [reflexivity|]).
    split; [intros Hq; discriminate Hq | intros fs' _; reflexivity].
  - destruct (sel us); do 2 eexists; (split; [reflexivity|]); cbn;
      do 4 (split; [reflexivity|]);
      (split; [intros Hq; discriminate Hq | intros fs' Hq; discriminate Hq]).
Qed.

Lemma QueryRow_Scan_healthy sel w :
  faults w = [] ->
  database.QueryRow_Scan sel w
  = (Err (match sel (users w) with
          | Some _ => conversion_refused "id"
          | None => sql_ErrNoRows
          end), w).
Proof.
  intros Hf.
  destruct (QueryRow_Scan_spec sel w) as (e & w' & E & _ & _ & _ & _ & Hh & _).
  destruct (Hh Hf) as (-> & ->). exact E.
Qed.

Lemma lookup_frame sel w r w1 :
  database.QueryRow_Scan sel w = (r, w1) ->
  users w1 = users w /\ now w1 = now w /\ later w1 = later w.
Proof.
  intros Hq.
  destruct (QueryRow_Scan_spec sel w) as (e & w' & E & U & N & L & _).
  rewrite E in Hq. inversion Hq; subst. auto.
Qed.

(** No lookup returns a record. *)
Lemma lookup_not_Ok sel w u w1 :
  database.QueryRow_Scan sel w = (Ok u, w1) -> False.
Proof.
  intros Hq.
  destruct (QueryRow_Scan_spec sel w) as (e & w' & E & _).
  rewrite E in Hq. discriminate Hq.
Qed.

(** ** Register and the identifier it returns *)

(** Whatever Register returns, the row it has stored carries the default
    identifier of the column, not the identifier handed back. *)
Lemma Register_stores_default_id `{Primitives} s req w user w' :
  services.Register s req w = (Ok user, w') ->
  exists row,
    users w' = (users w ++ [row])%list
    /\ ID row = database.column_default_id
    /\ Username row = create_Username req
    /\ Email row = create_Email req.
Proof.
  unfold services.Register. unfold bind at 1.
  destruct (services.GetUserByUsername s (create_Username req) w)
    as [[u|e|m] w1] eqn:E1; [discriminate| |];
    unfold services.GetUserByUsername, database.GetUserByUsername in E1;
    destruct (lookup_frame _ _ _ _ E1) as (U1 & _); clear E1;
    unfold bind at 1;
    (destruct (services.GetUserByEmail s (create_Email req) w1)
      as [[u|e2|m2] w2] eqn:E2; [discriminate| |]);
    unfold services.GetUserByEmail, database.GetUserByEmail in E2;
    destruct (lookup_frame _ _ _ _ E2) as (U2 & _); clear E2.
  all: unfold database.InsertUser; run;
    destruct (take_entropy 16 (entropy w2)) as [salt e'];
    destruct (bcrypt_GenerateFromPassword salt (create_Password req) bcrypt_DefaultCost);
    try discriminate.
  all: destruct (later w2) as [|t1 [|t2 [|t3 l3]]]; cbn;
    destruct (faults w2) as [|[] fs]; cbn; intros Hq; inversion Hq; subst; cbn;
    eexists; rewrite U2, U1; repeat split.
Qed.

(** C1.  At a concrete registration the identifier in the returned view
    is the clock value 1700000000000000003, the record is persisted under
    identifier 0, and a lookup by the returned identifier finds no row. *)
Theorem Register_returned_id_finds_no_record :
  exists user w',
    services.Register (H := example.plain) example.svc example.alice_req
                      example.empty_world = (Ok user, w')
    /\ ID user = 1700000000000000003
    /\ map ID (users w') = [0]
    /\ fst (services.GetUserByID example.svc (ID user) w') = Err sql_ErrNoRows.
Proof.
  eexists. eexists. split; [vm_compute; reflexivity|].
  repeat split; vm_compute; reflexivity.
Qed.

(** ** Tokens: issue, verify, expire *)

(** The largest number of hours a [time.Duration] holds. *)
Example fits_Duration_bound : fits_Duration 2562047 /\ ~ fits_Duration 2562048.
Proof.
  unfold fits_Duration, in_int64, MinInt64, MaxInt64, Hour, Second. lia.
Qed.

Lemma expiry_arith t h :
  clock_in_range t -> 0 < h -> fits_Duration h ->
  Add t (Duration_mul h Hour) = t + h * Hour
  /\ Unix (Add t (Duration_mul h Hour)) = Unix t + 3600 * h
  /\ 0 < Unix t + 3600 * h < 2 ^ 53
  /\ 0 <= Unix t < 2 ^ 53.
Proof.
  unfold clock_in_range, fits_Duration, Add, Duration_mul, Unix. intros Ht Hh Hfit.
  rewrite (wrap64_small _ Hfit).
  unfold in_int64, MinInt64, MaxInt64, Hour, Second in *.
  assert (E : (t + h * (3600 * 1000000000)) / 1000000000 = t / 1000000000 + 3600 * h).
  { replace (t + h * (3600 * 1000000000)) with (t + (3600 * h) * 1000000000) by lia.
    apply Z.div_add. lia. }
  rewrite E.
  assert (0 <= t / 1000000000 < 9223372037) by
    (split; [apply Z.div_pos; lia | apply Z.div_lt_upper_bound; lia]).
  assert (3600 * h <= 9223372036) by lia.
  repeat split; try lia.
Qed.

(** What verification makes of a token the service has just issued. *)
Lemma ValidateJWT_issued `{Primitives} s userID username role w :
  clock_in_range (now w) -> 0 < services.jwtExpire s -> fits_Duration (services.jwtExpire s) ->
  in_int64 userID ->
  exists tok w1,
    services.GenerateJWT s userID username role w
      = (Ok (tok, now w + services.jwtExpire s * Hour), w1)
    /\ embedded_expiry tok = Some (Unix (now w) + 3600 * services.jwtExpire s)
    /\ forall w2,
        fst (services.ValidateJWT s tok w2)
        = if now w2 <? time_Unix (Unix (now w) + 3600 * services.jwtExpire s) 0
          then Ok (issued_payload userID username role (now w) (services.jwtExpire s))
          else Err (Errorf_w "invalid token"
                      (jwt_error [ErrTokenInvalidClaims; ErrTokenExpired])).
Proof.
  intros Ht Hh Hfit Hid.
  destruct (expiry_arith _ _ Ht Hh Hfit) as (EA & EU & Hexp & Hiat).
  unfold services.GenerateJWT, services.generateJTI. run.
  destruct (take_entropy 16 _) as [bytes e'] eqn:Eent.
  unfold SignedString, NewWithClaims. cbn [Method Claims is_SigningMethodHMAC map fst snd json_Marshal].
  rewrite EU, EA.
  eexists. eexists. split; [reflexivity|]. split; [reflexivity|].
  intros w2. unfold services.ValidateJWT, Parse. run.
  cbn [seg_claims seg_alg seg_signature decode_claims json_Unmarshal].
  rewrite !float64_overflows_small.
  2-4: unfold in_int64, MinInt64, MaxInt64 in *; lia.
  rewrite (float64_of_int_exact (Unix (now w))) by lia.
  rewrite (float64_of_int_exact (Unix (now w) + 3600 * services.jwtExpire s)) by lia.
  cbn [Method is_SigningMethodHMAC negb].
  rewrite String.eqb_refl. cbn [negb].
  unfold Validate. run.
  unfold verifyExpiresAt, verifyNotBefore, parseNumericDate.
  set (E := Unix (now w) + 3600 * services.jwtExpire s) in *.
  repeat match goal with
  | |- context [lookup ?k ?l] =>
      let v := eval cbv [lookup String.eqb Ascii.eqb Bool.eqb] in (lookup k l) in
      change (lookup k l) with v
  end.
  cbv beta iota.
  replace (E =? 0) with false by (symmetry; apply Z.eqb_neq; lia).
  rewrite (int64_of_float64_small E)
    by (unfold in_int64, MinInt64, MaxInt64; lia).
  unfold Before.
  destruct (now w2 <? time_Unix E 0); cbn.
  - unfold issued_payload.
    rewrite (int64_of_float64_small (Unix (now w))), (int64_of_float64_small E)
      by (unfold in_int64, MinInt64, MaxInt64; lia).
    reflexivity.
  - reflexivity.
Qed.

Lemma issue_instant_before_expiry t h :
  clock_in_range t -> 0 < h -> fits_Duration h ->
  t < time_Unix (Unix t + 3600 * h) 0.
Proof.
  intros Ht Hh Hfit.
  destruct (expiry_arith _ _ Ht Hh Hfit) as (_ & _ & Hexp & _).
  rewrite time_Unix_seconds by (unfold MinInt64, MaxInt64, unixToInternal; lia).
  clear Hexp Hfit Ht. unfold Unix, Second.
  pose proof (Z.mod_pos_bound t 1000000000 ltac:(lia)) as Hm.
  pose proof (Z.div_mod t 1000000000 ltac:(lia)) as Hd.
  lia.
Qed.

(** The round trip for identifiers a float64 holds exactly. *)
Lemma ValidateJWT_GenerateJWT_small_id `{Primitives} s userID username role w :
  clock_in_range (now w) -> 0 < services.jwtExpire s ->
  fits_Duration (services.jwtExpire s) ->
  Z.abs userID < 2 ^ 53 ->
  exists tok expiresAt w1,
    services.GenerateJWT s userID username role w = (Ok (tok, expiresAt), w1)
    /\ forall w2, now w2 = now w ->
         exists payload,
           fst (services.ValidateJWT s tok w2) = Ok payload
           /\ UserID payload = userID
           /\ payload_Username payload = username
           /\ payload_Role payload = role.
Proof.
  intros Ht Hh Hfit Hid.
  assert (Hin : in_int64 userID) by (unfold in_int64, MinInt64, MaxInt64; lia).
  destruct (ValidateJWT_issued s userID username role w Ht Hh Hfit Hin) as (tok & w1 & HG & _ & HV).
  exists tok, (now w + services.jwtExpire s * Hour), w1. split; [exact HG|].
  intros w2 Hnow. rewrite HV, Hnow.
  pose proof (issue_instant_before_expiry (now w) _ Ht Hh Hfit) as Hlt.
  apply Z.ltb_lt in Hlt. rewrite Hlt.
  eexists. split; [reflexivity|]. cbn.
  rewrite float64_of_int_exact by exact Hid.
  rewrite int64_of_float64_small by exact Hin. auto.
Qed.

(** [float64_of_int] against the IEEE 754 binary64 normalisation of the
    standard library, at the identifiers used below. *)
Lemma float64_of_int_agrees_with_binary64 :
  Forall (fun z => binary64_of_int z = Some (float64_of_int z))
         [0; 7; 9007199254740993; -9007199254740995;
          1700000000000000001; 1700000000000000003; MaxInt64; MinInt64].
Proof.
  repeat constructor; vm_compute; reflexivity.
Qed.

(** C2.  A token issued for the identifier 1700000000000000001 (a value
    of the clock in nanoseconds, as InsertUser draws them) verifies at
    the instant of issue with the same secret, and the payload carries
    the identifier 1700000000000000000. *)
Theorem ValidateJWT_returns_other_user_id :
  exists tok expiresAt w1,
    services.GenerateJWT (H := example.plain) example.svc
        1700000000000000001 "alice" "user" example.small_world
      = (Ok (tok, expiresAt), w1)
    /\ now w1 = now example.small_world
    /\ fst (services.ValidateJWT (H := example.plain) example.svc tok w1)
       = Ok (mkJWTPayload 1700000000000000000 "alice" "user" 1700086400 1700000000).
Proof.
  eexists. eexists. eexists. split; [vm_compute; reflexivity|].
  split; vm_compute; reflexivity.
Qed.

(** C3.  The expiry embedded in an issued token is the second of issue
    plus the configured hours, the expiry handed back is the instant of
    issue plus those hours, and verification at any instant past the
    embedded expiry (one second past the returned expiry, say) fails with
    an error that is ErrTokenExpired. *)
Theorem issued_token_expires `{Primitives} s userID username role w :
  clock_in_range (now w) -> 0 < services.jwtExpire s ->
  fits_Duration (services.jwtExpire s) -> in_int64 userID ->
  exists tok expiresAt w1 exp,
    services.GenerateJWT s userID username role w = (Ok (tok, expiresAt), w1)
    /\ expiresAt = Add (now w) (services.jwtExpire s * Hour)
    /\ embedded_expiry tok = Some exp
    /\ exp = Unix expiresAt
    /\ exp = Unix (now w) + services.jwtExpire s * 3600
    /\ (forall w2, time_Unix exp 0 < now w2 ->
          exists e, fst (services.ValidateJWT s tok w2) = Err e
                    /\ errors_Is e ErrTokenExpired = true)
    /\ (forall w2, now w2 = Add expiresAt Second ->
          exists e, fst (services.ValidateJWT s tok w2) = Err e
                    /\ errors_Is e ErrTokenExpired = true).
Proof.
  intros Ht Hh Hfit Hid.
  destruct (ValidateJWT_issued s userID username role w Ht Hh Hfit Hid) as (tok & w1 & HG & HE & HV).
  destruct (expiry_arith _ _ Ht Hh Hfit) as (EA & EU & Hexp & _).
  exists tok, (now w + services.jwtExpire s * Hour), w1,
         (Unix (now w) + 3600 * services.jwtExpire s).
  assert (Hpast : forall w2,
             time_Unix (Unix (now w) + 3600 * services.jwtExpire s) 0 < now w2 ->
             exists e, fst (services.ValidateJWT s tok w2) = Err e
                       /\ errors_Is e ErrTokenExpired = true).
  { intros w2 Hlt. rewrite HV.
    destruct (Z.ltb_spec (now w2)
                (time_Unix (Unix (now w) + 3600 * services.jwtExpire s) 0)); [lia|].
    eexists. split; reflexivity. }
  assert (EA' : now w + services.jwtExpire s * Hour
                = Add (now w) (services.jwtExpire s * Hour)) by reflexivity.
  assert (EU' : Unix (now w + services.jwtExpire s * Hour)
                = Unix (now w) + 3600 * services.jwtExpire s)
    by (rewrite <- EU, EA; reflexivity).
  split; [exact HG|]. split; [exact EA'|]. split; [exact HE|].
  split; [symmetry; exact EU'|]. split; [lia|].
  split; [exact Hpast|].
  intros w2 Hnow. apply Hpast. rewrite Hnow.
  rewrite time_Unix_seconds by (unfold MinInt64, MaxInt64, unixToInternal; lia).
  rewrite <- EU'. unfold Add, Unix, Second.
  pose proof (Z.div_mod (now w + services.jwtExpire s * Hour) 1000000000 ltac:(lia)) as Hd.
  pose proof (Z.mod_pos_bound (now w + services.jwtExpire s * Hour) 1000000000
                ltac:(lia)) as Hm.
  lia.
Qed.

(** Closes a numeric side condition on concrete data. *)
Ltac concrete :=
  repeat split;
  solve [ vm_compute; reflexivity
        | vm_compute; intro; discriminate
        | vm_compute; discriminate ].

Lemma issued_token_expires_witness :
  clock_in_range (now example.small_world)
  /\ 0 < services.jwtExpire example.svc
  /\ fits_Duration (services.jwtExpire example.svc)
  /\ in_int64 7
  /\ exists tok expiresAt w1,
       services.GenerateJWT (H := example.plain) example.svc 7 "alice" "user"
                            example.small_world = (Ok (tok, expiresAt), w1)
       /\ embedded_expiry tok = Some 1700086400
       /\ forall w2, now w2 = Add expiresAt Second ->
            exists e, fst (services.ValidateJWT (H := example.plain) example.svc tok w2)
                      = Err e
                      /\ errors_Is e ErrTokenExpired = true.
Proof.
  assert (H1 : clock_in_range (now example.small_world)) by concrete.
  assert (H2 : 0 < services.jwtExpire example.svc) by concrete.
  assert (H3 : fits_Duration (services.jwtExpire example.svc)) by concrete.
  assert (H4 : in_int64 7) by concrete.
  repeat (split; [assumption|]).
  destruct (issued_token_expires (H := example.plain) example.svc 7 "alice" "user"
              example.small_world H1 H2 H3 H4)
    as (tok & expiresAt & w1 & exp & HG & _ & HE & _ & Hexp & _ & Hpast).
  exists tok, expiresAt, w1. split; [exact HG|].
  split; [rewrite HE, Hexp; reflexivity | exact Hpast].
Defined.

(** ** Login *)

(** Every lookup ends in an error, and Login answers every error of its
    lookup alike. *)
Lemma Login_invalid_credentials `{Primitives} s req w :
  exists w',
    services.Login s req w = (Err (Errorf "invalid credentials"), w')
    /\ users w' = users w
    /\ (faults w = [] -> w' = w).
Proof.
  unfold services.Login, services.GetUserByUsername, database.GetUserByUsername.
  unfold bind at 1.
  destruct (QueryRow_Scan_spec (database.select_by_username (login_Username req)) w)
    as (e & w' & E & U & _ & _ & _ & Hh & _).
  rewrite E. exists w'. split; [reflexivity|]. split; [exact U|].
  intros Hf. exact (proj1 (Hh Hf)).
Qed.

(** C4.  A login for a username the directory does not hold and a login
    with a non-matching password for an active user both fail with the
    same error value, "invalid credentials". *)
Theorem Login_same_error_for_unknown_user_and_wrong_password `{Primitives}
        s w1 w2 u pw v pw' :
  database.select_by_username u (users w1) = None ->
  database.select_by_username (Username v) (users w2) = Some v ->
  IsActive v = true ->
  bcrypt_CompareHashAndPassword (Password v) pw' <> None ->
  fst (services.Login s (mkLoginRequest u pw) w1) = Err (Errorf "invalid credentials")
  /\ fst (services.Login s (mkLoginRequest (Username v) pw') w2)
     = Err (Errorf "invalid credentials")
  /\ fst (services.Login s (mkLoginRequest u pw) w1)
     = fst (services.Login s (mkLoginRequest (Username v) pw') w2).
Proof.
  intros Hnone Hsome Hact Hpw.
  destruct (Login_invalid_credentials s (mkLoginRequest u pw) w1) as (w1' & A & _).
  destruct (Login_invalid_credentials s (mkLoginRequest (Username v) pw') w2)
    as (w2' & B & _).
  rewrite A, B. auto.
Qed.

Lemma Login_same_error_witness :
  database.select_by_username "ghost" (users example.small_world) = None
  /\ database.select_by_username (Username example.alice) (users example.small_world)
     = Some example.alice
  /\ IsActive example.alice = true
  /\ bcrypt_CompareHashAndPassword (Primitives := example.plain)
       (Password example.alice) "wrongpw" <> None
  /\ fst (services.Login (H := example.plain) example.svc
            (mkLoginRequest "ghost" "x") example.small_world)
     = fst (services.Login (H := example.plain) example.svc
              (mkLoginRequest "alice" "wrongpw") example.small_world).
Proof.
  assert (H1 : database.select_by_username "ghost" (users example.small_world) = None)
    by concrete.
  assert (H2 : database.select_by_username (Username example.alice)
                 (users example.small_world) = Some example.alice) by concrete.
  assert (H3 : IsActive example.alice = true) by concrete.
  assert (H4 : bcrypt_CompareHashAndPassword (Primitives := example.plain)
                 (Password example.alice) "wrongpw" <> None) by concrete.
  repeat (split; [assumption|]).
  exact (proj2 (proj2 (Login_same_error_for_unknown_user_and_wrong_password
                         (H := example.plain) example.svc
                         example.small_world example.small_world
                         "ghost" "x" example.alice "wrongpw" H1 H2 H3 H4))).
Defined.

Lemma GenerateJWT_Ok `{Primitives} s userID username role w :
  exists tok expiresAt w1,
    services.GenerateJWT s userID username role w = (Ok (tok, expiresAt), w1).
Proof.
  unfold services.GenerateJWT, services.generateJTI. run.
  destruct (take_entropy 16 _) as [bytes e']. cbn.
  eexists. eexists. eexists. reflexivity.
Qed.

(** Login past the password check: a token is issued and the login
    succeeds, whether or not the last-login update goes through. *)
Lemma Login_after_checks_Ok `{Primitives} s user w :
  exists resp,
    fst ((issued <- services.GenerateJWT s (ID user) (Username user) (Role user) ;;
          match issued with
          | Err e => ret (Err (Errorf_w "failed to generate token" e))
          | Panic msg => ret (Panic msg)
          | Ok (token, expiresAt) =>
              now <- time_Now ;;
              database.UpdateUserLastLogin (ID user) now ;;;
              ret (Ok (services.mkLoginResponse token expiresAt
                         (set_Password (set_LastLogin user (Some now)) "")))
          end)%go w) = Ok resp.
Proof.
  destruct (GenerateJWT_Ok s (ID user) (Username user) (Role user) w)
    as (tok & ex & w1 & E).
  unfold bind at 1. rewrite E. clear E.
  unfold database.UpdateUserLastLogin. run.
  destruct w1 as [us fs t l e].
  destruct l as [|t1 [|t2 l2]]; destruct fs as [|[] fs]; cbn; eexists; reflexivity.
Qed.

(** C5.  Login never answers "account is disabled".  The test of the
    active flag stands behind the lookup by username, and the lookup
    returns no record: on a healthy connection a row that is found is
    refused by the Scan of its [id] column into [user.ID], and Login
    answers that error, like every other, with "invalid credentials";
    so also for an inactive record and the password that matches its
    hash.  The table is left as it was. *)
Theorem Login_never_answers_account_disabled `{Primitives} s req w :
  fst (services.Login s req w) = Err (Errorf "invalid credentials")
  /\ fst (services.Login s req w) <> Err (Errorf "account is disabled")
  /\ users (snd (services.Login s req w)) = users w
  /\ forall v,
       faults w = [] ->
       database.select_by_username (login_Username req) (users w) = Some v ->
       IsActive v = false ->
       bcrypt_CompareHashAndPassword (Password v) (login_Password req) = None ->
       services.GetUserByUsername s (login_Username req) w
       = (Err (conversion_refused "id"), w)
       /\ services.Login s req w = (Err (Errorf "invalid credentials"), w).
Proof.
  destruct (Login_invalid_credentials s req w) as (w' & E & U & Hh).
  rewrite E. cbn [fst snd].
  split; [reflexivity|]. split; [intros Hq; discriminate Hq|]. split; [exact U|].
  intros v Hf Hsel _ _.
  rewrite (Hh Hf). split; [|reflexivity].
  unfold services.GetUserByUsername, database.GetUserByUsername.
  rewrite (QueryRow_Scan_healthy _ _ Hf), Hsel. reflexivity.
Qed.

(** The disabled account of bob, on a healthy connection, with the
    password its hash was made from. *)
Example Login_of_a_disabled_account :
  database.select_by_username "bob" (users example.small_world) = Some example.bob
  /\ IsActive example.bob = false
  /\ bcrypt_CompareHashAndPassword (Primitives := example.plain)
       (Password example.bob) "hunter2" = None
  /\ services.Login (H := example.plain) example.svc
       (mkLoginRequest "bob" "hunter2") example.small_world
     = (Err (Errorf "invalid credentials"), example.small_world).
Proof.
  repeat split; vm_compute; reflexivity.
Qed.

(** ** Listing users *)

Example strconv_Atoi_samples :
  map (fun s => fst (handlers.strconv_Atoi s))
      ["42"; "-7"; "+3"; ""; "-"; "12a"; "99999999999999999999"]
  = [42; -7; 3; 0; 0; 0; MaxInt64].
Proof. vm_compute. reflexivity. Qed.

(** The listing stops at its first Scan: the count of the rows, a
    [UInt64], does not go into [var total int64]. *)
Lemma database_GetUsers_refused page perPage role w :
  exists e w',
    database.GetUsers page perPage role w = (Err e, w')
    /\ users w' = users w
    /\ (e = conversion_refused "count()" \/ e = driver_error)
    /\ (faults w = [] -> e = conversion_refused "count()" /\ w' = w).
Proof.
  unfold database.GetUsers. run. rewrite scan_count_refused.
  destruct w as [us fs t l e]; cbn.
  destruct fs as [|[] fs]; cbn; do 2 eexists; (split; [reflexivity|]); cbn;
    (split; [reflexivity|]).
  - split; [left; reflexivity | intros _; split; reflexivity].
  - split; [right; reflexivity | intros Hq; discriminate Hq].
  - split; [left; reflexivity | intros Hq; discriminate Hq].
Qed.

(** What the statements behind the count would give, were they reached:
    rows in descending order of creation, and the ceiling of the total
    over the page size. *)
Lemma insert_desc_sorted u l :
  StronglySorted created_desc l ->
  StronglySorted created_desc (database.insert_desc u l).
Proof.
  induction 1 as [|v l Hl IH Hv]; cbn.
  - repeat constructor.
  - destruct (Z.leb_spec (CreatedAt v) (CreatedAt u)).
    + constructor; [constructor; assumption|].
      constructor; [assumption|].
      eapply Forall_impl; [|exact Hv]. unfold created_desc. intros; lia.
    + constructor; [assumption|].
      clear IH Hl. induction l as [|x l IHl]; cbn.
      * repeat constructor. unfold created_desc. lia.
      * inversion Hv; subst.
        destruct (Z.leb_spec (CreatedAt x) (CreatedAt u)).
        -- constructor; [unfold created_desc; lia|]. constructor; assumption.
        -- constructor; [assumption|]. apply IHl. assumption.
Qed.

Lemma order_by_created_at_desc_sorted l :
  StronglySorted created_desc (database.order_by_created_at_desc l).
Proof.
  induction l; cbn; [constructor | apply insert_desc_sorted; assumption].
Qed.

Lemma ceiling_division total p :
  0 <= total -> 0 < p -> total + p <= MaxInt64 ->
  ceiling_of (quo64 (wrap64 (wrap64 (total + p) - 1)) p) total p.
Proof.
  intros Ht Hp Hfit. unfold ceiling_of, quo64, MaxInt64 in *.
  rewrite (wrap64_small (total + p)) by (unfold in_int64, MinInt64, MaxInt64; lia).
  rewrite (wrap64_small (total + p - 1)) by (unfold in_int64, MinInt64, MaxInt64; lia).
  rewrite Z.quot_div_nonneg by lia.
  pose proof (Z.div_mod (total + p - 1) p ltac:(lia)) as Hd.
  pose proof (Z.mod_pos_bound (total + p - 1) p Hp) as Hm.
  assert (0 <= (total + p - 1) / p <= total + p - 1).
  { split; [apply Z.div_pos; lia|]. apply Z.div_le_upper_bound; nia. }
  rewrite wrap64_small by (unfold in_int64, MinInt64, MaxInt64; lia).
  cbv zeta. nia.
Qed.


(** The first page of two of the three rows of the examples, on a
    healthy connection. *)
Example GetUsers_of_three_rows :
  faults example.small_world = []
  /\ services.GetUsers example.svc 1 2 "" example.small_world
     = (Err (conversion_refused "count()"), example.small_world).
Proof.
  split; vm_compute; reflexivity.
Qed.

(** C6, as the code has it.  For a request bound to the role "admin"
    the handler calls GetUsers, whatever that method does, with the page
    raised to 1 when below 1 and with the page size replaced by 10 when
    outside [1,100], so that the page size passed is within [1,100]; its
    answer is made from the outcome of that one call. *)
Theorem handler_GetUsers_page_and_default_size GetUsers c w :
  Get c "user_role" = Some (AString "admin") ->
  let page := fst (handlers.strconv_Atoi (QueryParam c "page")) in
  let perPage := fst (handlers.strconv_Atoi (QueryParam c "per_page")) in
  exists page' perPage',
    page' = (if page <? 1 then 1 else page)
    /\ perPage' = (if (perPage <? 1) || (100 <? perPage) then 10 else perPage)
    /\ 1 <= page'
    /\ 1 <= perPage' <= 100
    /\ handlers.GetUsers_calling GetUsers c w
       = (let (listed, w') := GetUsers page' perPage' (QueryParam c "role") w in
          match listed with
          | Err _ =>
              JSON c StatusInternalServerError (error_body "Failed to get users") w'
          | Panic msg => (Panic msg, w')
          | Ok users =>
              JSON c StatusOK (mkAPIResponse true (DataUsers users) "" "") w'
          end).
Proof.
  intros Hadmin page perPage.
  exists (if page <? 1 then 1 else page),
         (if (perPage <? 1) || (100 <? perPage) then 10 else perPage).
  split; [reflexivity|]. split; [reflexivity|].
  split; [destruct (Z.ltb_spec page 1); lia|].
  split; [destruct (Z.ltb_spec perPage 1); destruct (Z.ltb_spec 100 perPage); cbn; lia|].
  unfold handlers.GetUsers_calling. rewrite Hadmin.
  change (String.eqb "admin" "admin") with true. cbn [negb].
  fold page. fold perPage. unfold bind.
  destruct (GetUsers (if page <? 1 then 1 else page)
              (if (perPage <? 1) || (100 <? perPage) then 10 else perPage)
              (QueryParam c "role") w) as [[resp|e|msg] w1]; reflexivity.
Qed.

Lemma handler_GetUsers_witness :
  Get (list_request "0" "500") "user_role" = Some (AString "admin")
  /\ handlers.GetUsers (handlers.mkAuthHandler example.svc)
       (list_request "0" "500") example.small_world
     = (let (listed, w') := services.GetUsers example.svc 1 10 "" example.small_world in
        match listed with
        | Err _ =>
            JSON (list_request "0" "500") StatusInternalServerError
                 (error_body "Failed to get users") w'
        | Panic msg => (Panic msg, w')
        | Ok users =>
            JSON (list_request "0" "500") StatusOK
                 (mkAPIResponse true (DataUsers users) "" "") w'
        end).
Proof.
  assert (H1 : Get (list_request "0" "500") "user_role" = Some (AString "admin"))
    by reflexivity.
  split; [exact H1|].
  destruct (handler_GetUsers_page_and_default_size
              (services.GetUsers example.svc) (list_request "0" "500")
              example.small_world H1)
    as (page' & perPage' & Hp & Hpp & _ & _ & E).
  vm_compute in Hp. vm_compute in Hpp. subst page' perPage'.
  exact E.
Defined.

(** C6, as stated, fails: called through the handler with a page size of
    150, a method that reports its arguments has received 10, not 100,
    and with a page size of 0 it has received 10, not 1. *)
Lemma handler_GetUsers_does_not_clamp :
  answered_PerPage (handlers.GetUsers_calling reporting_arguments
                      (list_request "1" "150") example.small_world) = Some 10
  /\ answered_PerPage (handlers.GetUsers_calling reporting_arguments
                         (list_request "1" "0") example.small_world) = Some 10
  /\ 10 <> 100 /\ 10 <> 1.
Proof.
  concrete.
Qed.

(** ** Profile update *)

(** UpdateUser starts with the lookup by identifier and gives up on its
    error. *)
Lemma UpdateUser_user_not_found s userID req w :
  exists e w',
    services.UpdateUser s userID req w = (Err (Errorf_w "user not found" e), w')
    /\ users w' = users w
    /\ (faults w = [] ->
        w' = w /\ e = match database.select_by_id userID (users w) with
                      | Some _ => conversion_refused "id"
                      | None => sql_ErrNoRows
                      end).
Proof.
  unfold services.UpdateUser, services.GetUserByID, database.GetUserByID.
  unfold bind at 1.
  destruct (QueryRow_Scan_spec (database.select_by_id userID) w)
    as (e & w' & E & U & _ & _ & _ & Hh & _).
  rewrite E. exists e, w'. split; [reflexivity|]. split; [exact U | exact Hh].
Qed.

(** C8.  UpdateUser updates no user.  It reads the record by its
    identifier first, and that lookup returns none: for a user the
    directory holds, on a healthy connection, the row found is refused
    by the Scan of its [id] column into [user.ID], and UpdateUser
    answers "user not found" around that error, as it does for an
    identifier without a row.  No request, the all-empty one included,
    gets as far as the UPDATE: no column of the table, [updated_at]
    included, is written. *)
Theorem UpdateUser_never_finds_the_user s userID req w :
  (exists e w',
     services.UpdateUser s userID req w = (Err (Errorf_w "user not found" e), w')
     /\ users w' = users w)
  /\ (forall u,
        faults w = [] ->
        database.select_by_id userID (users w) = Some u ->
        services.UpdateUser s userID req w
        = (Err (Errorf_w "user not found" (conversion_refused "id")), w)).
Proof.
  destruct (UpdateUser_user_not_found s userID req w) as (e & w' & E & U & Hh).
  split.
  - exists e, w'. auto.
  - intros u Hf Hsel. destruct (Hh Hf) as (-> & He).
    rewrite Hsel in He. subst e. exact E.
Qed.

(** The all-empty request for bob, whom the table holds under 8. *)
Example UpdateUser_empty_request_for_bob :
  database.select_by_id 8 (users example.small_world) = Some example.bob
  /\ services.UpdateUser example.svc 8 (mkUserUpdateRequest "" "" "" None)
                         example.small_world
     = (Err (Errorf_w "user not found" (conversion_refused "id")), example.small_world).
Proof.
  split; vm_compute; reflexivity.
Qed.

(** ** The gate *)

(** C9.  For a request the skipper does not exempt, carrying a token
    that verifies: a gate with a required role answers 403 "Insufficient
    permissions" without running the downstream handler when the role of
    the payload differs from it, and otherwise runs the handler on the
    context with user identifier, username and role bound. *)
Theorem JWTWithConfig_enforces_required_role `{Primitives}
        segments_of config next c w payload w1 :
  match middleware.config_Skipper config with
  | None => middleware.DefaultSkipper
  | Some f => f
  end c = false ->
  prefix "Bearer " (Authorization c) = true ->
  middleware.TrimPrefix_Bearer (Authorization c) <> "" ->
  services.ValidateJWT (middleware.config_AuthService config)
    (segments_of (middleware.TrimPrefix_Bearer (Authorization c))) w = (Ok payload, w1) ->
  middleware.RequiredRole config <> "" ->
  let bound := Set_ (Set_ (Set_ c "user_id" (AInt64 (UserID payload)))
                          "username" (AString (payload_Username payload)))
                    "user_role" (AString (payload_Role payload)) in
  (payload_Role payload <> middleware.RequiredRole config ->
     forall next',
       middleware.JWTWithConfig segments_of config next' c w
       = JSON c StatusForbidden (error_body "Insufficient permissions") w1)
  /\ (payload_Role payload = middleware.RequiredRole config ->
        middleware.JWTWithConfig segments_of config next c w = next bound w1)
  /\ Get bound "user_id" = Some (AInt64 (UserID payload))
  /\ Get bound "username" = Some (AString (payload_Username payload))
  /\ Get bound "user_role" = Some (AString (payload_Role payload)).
Proof.
  intros Hskip Hpre Htok Hval Hreq bound.
  assert (Hhdr : String.eqb (Authorization c) "" = false).
  { destruct (Authorization c); [discriminate Hpre | reflexivity]. }
  assert (Htok' : String.eqb (middleware.TrimPrefix_Bearer (Authorization c)) "" = false)
    by (apply String.eqb_neq; exact Htok).
  assert (Hreq' : String.eqb (middleware.RequiredRole config) "" = false)
    by (apply String.eqb_neq; exact Hreq).
  assert (Hrun : forall nx,
    middleware.JWTWithConfig segments_of config nx c w
    = if negb (String.eqb (payload_Role payload) (middleware.RequiredRole config))
      then JSON c StatusForbidden (error_body "Insufficient permissions") w1
      else nx bound w1).
  { intros nx. unfold middleware.JWTWithConfig.
    rewrite Hskip, Hhdr, Hpre, Htok'. cbn [negb].
    unfold bind. rewrite Hval, Hreq'. cbn [negb andb].
    destruct (negb _); reflexivity. }
  split; [|split].
  - intros Hne next'. rewrite Hrun.
    apply String.eqb_neq in Hne. rewrite Hne. reflexivity.
  - intros Heq. rewrite Hrun.
    apply String.eqb_eq in Heq. rewrite Heq. reflexivity.
  - repeat split.
Qed.

(** ** Register and its uniqueness checks *)

Lemma duplicate_errors_differ req req' : duplicate_username req <> duplicate_email req'.
Proof.
  unfold duplicate_username, duplicate_email. cbn. intros Hq. inversion Hq.
Qed.

(** The part of Register behind the two checks answers with a wrapped
    error, a panic or a user, never with a bare message. *)
Ltac register_tail w :=
  unfold database.InsertUser; run;
  destruct (take_entropy 16 (entropy w)) as [salt en'];
  destruct w as [us fs t l en]; cbn;
  match goal with
  | |- context [bcrypt_GenerateFromPassword ?a ?b ?c] =>
      destruct (bcrypt_GenerateFromPassword a b c)
  end; cbn;
  try (intros Hq; discriminate Hq);
  destruct l as [|t1 [|t2 [|t3 l3]]]; destruct fs as [|[] fs]; cbn;
  intros Hq; discriminate Hq.

(** C10.  Register answers with the duplicate-username error exactly
    when the lookup by username returns a record, and with the
    duplicate-email error exactly when that lookup returns none and the
    lookup by email returns one.  When both lookups fail with an error,
    whatever the table holds, the password is hashed and the record
    inserted. *)
Theorem Register_duplicate_only_after_successful_lookup `{Primitives} s req w :
  (fst (services.Register s req w) = Err (duplicate_username req)
   <-> exists u w1,
         services.GetUserByUsername s (create_Username req) w = (Ok u, w1))
  /\ (fst (services.Register s req w) = Err (duplicate_email req)
      <-> exists r1 w1 u w2,
            services.GetUserByUsername s (create_Username req) w = (r1, w1)
            /\ (forall u1, r1 <> Ok u1)
            /\ services.GetUserByEmail s (create_Email req) w1 = (Ok u, w2))
  /\ (forall e1 w1 e2 w2 salt w3 hashed,
         services.GetUserByUsername s (create_Username req) w = (Err e1, w1) ->
         services.GetUserByEmail s (create_Email req) w1 = (Err e2, w2) ->
         rand_Read 16 w2 = (salt, w3) ->
         bcrypt_GenerateFromPassword salt (create_Password req) bcrypt_DefaultCost
         = Ok hashed ->
         faults w3 = [] ->
         exists user w' row,
           services.Register s req w = (Ok user, w')
           /\ users w' = (users w ++ [row])%list
           /\ Username row = create_Username req
           /\ Email row = create_Email req
           /\ Password row = hashed).
Proof.
  split; [|split].
  - unfold services.Register. unfold bind at 1.
    destruct (services.GetUserByUsername s (create_Username req) w) as [[u|e|m] w1].
    + split; [eauto | reflexivity].
    + split; [|intros (u & w' & Hq); discriminate].
      unfold bind at 1.
      destruct (services.GetUserByEmail s (create_Email req) w1) as [[u|e2|m] w2].
      * cbn. intros Hq. inversion Hq.
      * register_tail w2.
      * register_tail w2.
    + split; [|intros (u & w' & Hq); discriminate].
      unfold bind at 1.
      destruct (services.GetUserByEmail s (create_Email req) w1) as [[u|e2|m2] w2].
      * cbn. intros Hq. inversion Hq.
      * register_tail w2.
      * register_tail w2.
  - unfold services.Register. unfold bind at 1.
    destruct (services.GetUserByUsername s (create_Username req) w)
      as [[u|e|m] w1] eqn:E1.
    + split.
      * cbn. intros Hq. inversion Hq.
      * intros (r1 & w1' & u' & w2 & Hq & Hno & _). inversion Hq; subst.
        exfalso. exact (Hno u eq_refl).
    + unfold bind at 1.
      destruct (services.GetUserByEmail s (create_Email req) w1)
        as [[u|e2|m] w2] eqn:E2.
      * split; [|reflexivity]. intros _.
        exists (Err e), w1, u, w2.
        split; [reflexivity|]. split; [intros u1 Hq; discriminate Hq | exact E2].
      * split; [register_tail w2|].
        intros (r1 & w1' & u' & w2' & Hq & _ & Hq2). inversion Hq; subst.
        rewrite Hq2 in E2. discriminate.
      * split; [register_tail w2|].
        intros (r1 & w1' & u' & w2' & Hq & _ & Hq2). inversion Hq; subst.
        rewrite Hq2 in E2. discriminate.
    + unfold bind at 1.
      destruct (services.GetUserByEmail s (create_Email req) w1)
        as [[u|e2|m2] w2] eqn:E2.
      * split; [|reflexivity]. intros _.
        exists (Panic m), w1, u, w2.
        split; [reflexivity|]. split; [intros u1 Hq; discriminate Hq | exact E2].
      * split; [register_tail w2|].
        intros (r1 & w1' & u' & w2' & Hq & _ & Hq2). inversion Hq; subst.
        rewrite Hq2 in E2. discriminate.
      * split; [register_tail w2|].
        intros (r1 & w1' & u' & w2' & Hq & _ & Hq2). inversion Hq; subst.
        rewrite Hq2 in E2. discriminate.
  - intros e1 w1 e2 w2 salt w3 hashed L1 L2 HR HB HF.
    assert (U1 : users w1 = users w).
    { unfold services.GetUserByUsername, database.GetUserByUsername in L1.
      exact (proj1 (lookup_frame _ _ _ _ L1)). }
    assert (U2 : users w2 = users w1).
    { unfold services.GetUserByEmail, database.GetUserByEmail in L2.
      exact (proj1 (lookup_frame _ _ _ _ L2)). }
    assert (U3 : users w3 = users w2 /\ now w3 = now w2 /\ later w3 = later w2).
    { unfold rand_Read in HR. destruct (take_entropy 16 (entropy w2)).
      inversion HR; subst. auto. }
    destruct U3 as (U3 & _).
    unfold services.Register. unfold bind at 1. rewrite L1.
    unfold bind at 1. rewrite L2.
    unfold bind at 1. rewrite HR, HB.
    unfold database.InsertUser. run.
    destruct w3 as [us fs t l en]. cbn in HF, U3. subst fs.
    destruct l as [|t1 [|t2 [|t3 l3]]]; cbn;
      eexists; eexists; eexists; (split; [reflexivity|]);
      cbn; rewrite U3, U2, U1; auto.
Qed.

Lemma Register_duplicate_witness :
  services.GetUserByUsername example.svc "alice" example.flaky_world
  = (Err driver_error,
     mkWorld (users example.small_world) [true] example.t0 [] [])
  /\ services.GetUserByEmail example.svc "alice@x.com"
       (mkWorld (users example.small_world) [true] example.t0 [] [])
     = (Err driver_error, example.small_world)
  /\ database.select_by_username "alice" (users example.flaky_world)
     = Some example.alice
  /\ exists user w' row,
       services.Register (H := example.plain) example.svc example.alice_req
                         example.flaky_world = (Ok user, w')
       /\ users w' = (users example.flaky_world ++ [row])%list
       /\ Username row = "alice"
       /\ Email row = "alice@x.com"
       /\ Password row = "$2a$secret1".
Proof.
  assert (L1 : services.GetUserByUsername example.svc
                 (create_Username example.alice_req) example.flaky_world
               = (Err driver_error,
                  mkWorld (users example.small_world) [true] example.t0 [] []))
    by reflexivity.
  assert (L2 : services.GetUserByEmail example.svc
                 (create_Email example.alice_req)
                 (mkWorld (users example.small_world) [true] example.t0 [] [])
               = (Err driver_error, example.small_world)) by reflexivity.
  split; [exact L1|]. split; [exact L2|]. split; [reflexivity|].
  exact (proj2 (proj2 (Register_duplicate_only_after_successful_lookup
                         (H := example.plain) example.svc example.alice_req
                         example.flaky_world))
           _ _ _ _ _ _ _ L1 L2 eq_refl eq_refl eq_refl).
Defined.

Lemma JWTWithConfig_witness :
  let admins := middleware.mkJWTConfig (Some middleware.DefaultSkipper)
                                       example.svc "admin" in
  let gate := middleware.JWTWithConfig (H := example.plain) example.segments_of admins in
  fst (gate example.done (example.request "Bearer alice.token" []) example.small_world)
  = Ok (mkContext "Bearer alice.token" [] []
          (Some (StatusForbidden, error_body "Insufficient permissions")))
  /\ fst (gate example.done (example.request "Bearer carol.token" []) example.small_world)
     = Ok (mkContext "Bearer carol.token" []
             [("user_role", AString "admin"); ("username", AString "carol");
              ("user_id", AInt64 9)]
             (Some (StatusOK, mkAPIResponse true NoData "" "ok"))).
Proof.
  intros admins gate.
  assert (S : match middleware.config_Skipper admins with
              | None => middleware.DefaultSkipper
              | Some f => f
              end (example.request "Bearer alice.token" []) = false) by reflexivity.
  assert (S' : match middleware.config_Skipper admins with
               | None => middleware.DefaultSkipper
               | Some f => f
               end (example.request "Bearer carol.token" []) = false) by reflexivity.
  assert (R : middleware.RequiredRole admins <> "") by (cbn; discriminate).
  assert (T : middleware.TrimPrefix_Bearer "Bearer alice.token" <> "")
    by (vm_compute; discriminate).
  assert (T' : middleware.TrimPrefix_Bearer "Bearer carol.token" <> "")
    by (vm_compute; discriminate).
  assert (V : services.ValidateJWT (H := example.plain) example.svc
                (example.segments_of (middleware.TrimPrefix_Bearer "Bearer alice.token"))
                example.small_world
              = (Ok (mkJWTPayload 7 "alice" "user" 1700086400 1700000000),
                 example.small_world)) by (vm_compute; reflexivity).
  assert (V' : services.ValidateJWT (H := example.plain) example.svc
                 (example.segments_of (middleware.TrimPrefix_Bearer "Bearer carol.token"))
                 example.small_world
               = (Ok (mkJWTPayload 9 "carol" "admin" 1700086400 1700000000),
                  example.small_world)) by (vm_compute; reflexivity).
  split.
  - unfold gate.
    rewrite (proj1 (JWTWithConfig_enforces_required_role (H := example.plain)
                      example.segments_of admins example.done
                      (example.request "Bearer alice.token" []) example.small_world
                      _ _ S eq_refl T V R)
               ltac:(cbn; discriminate) example.done).
    reflexivity.
  - unfold gate.
    rewrite (proj1 (proj2 (JWTWithConfig_enforces_required_role (H := example.plain)
                      example.segments_of admins example.done
                      (example.request "Bearer carol.token" []) example.small_world
                      _ _ S' eq_refl T' V' R))
               eq_refl).
    reflexivity.
Defined.

(** ** Configuration *)

(** A configuration that has passed validation has a positive number of
    hours and a secret, the premises under which the token properties
    above are stated. *)
Lemma validateConfig_jwt cfg :
  config.validateConfig cfg = None ->
  0 < config.ExpireHours (config.JWT cfg) /\ config.Secret (config.JWT cfg) <> "".
Proof.
  unfold config.validateConfig.
  repeat match goal with
         | |- context [if ?b then Some _ else _] => destruct b eqn:?; [discriminate|]
         end.
  intros _. split.
  - apply Z.leb_gt. assumption.
  - match goal with
    | Hs : (String.eqb _ "" || _)%bool = false |- _ =>
        apply orb_false_elim in Hs; destruct Hs as [Hs _];
        apply String.eqb_neq; exact Hs
    end.
Qed.

(* ================================================================= *)
(** * Further properties of the code

    The operations around the ones above: verification of arbitrary
    tokens, what Login, Register, UpdateUser, ChangePassword and
    DeleteUser leave in the table, and the two protected route groups. *)

Import vocabulary.

(** ** ValidateJWT on arbitrary tokens *)

Ltac validate_open :=
  unfold services.ValidateJWT, Parse, Validate; run.



(** X2.  The kind of error ValidateJWT wraps: ErrTokenMalformed for a
    text that does not decode, ErrTokenUnverifiable for a token whose
    algorithm is not an HMAC one (whatever its signature),
    ErrTokenSignatureInvalid for an HMAC token whose signature is not the
    one the secret gives. *)
Theorem ValidateJWT_rejection_kinds `{Primitives} s tok w :
  (tok = Garbled ->
     exists e, fst (services.ValidateJWT s tok w) = Err e
               /\ errors_Is e ErrTokenMalformed = true)
  /\ (forall segs,
        tok = Compact segs ->
        decode_claims (seg_claims segs) = None ->
        exists e, fst (services.ValidateJWT s tok w) = Err e
                  /\ errors_Is e ErrTokenMalformed = true)
  /\ (forall segs claims,
        tok = Compact segs ->
        decode_claims (seg_claims segs) = Some claims ->
        is_SigningMethodHMAC (seg_alg segs) = false ->
        exists e, fst (services.ValidateJWT s tok w) = Err e
                  /\ errors_Is e ErrTokenUnverifiable = true)
  /\ (forall segs claims,
        tok = Compact segs ->
        decode_claims (seg_claims segs) = Some claims ->
        is_SigningMethodHMAC (seg_alg segs) = true ->
        seg_signature segs
        <> HMAC (seg_alg segs) (services.jwtSecret s) (seg_alg segs, seg_claims segs) ->
        exists e, fst (services.ValidateJWT s tok w) = Err e
                  /\ errors_Is e ErrTokenSignatureInvalid = true).
Proof.
  repeat split.
  - intros ->. validate_open. eexists. split; reflexivity.
  - intros segs -> Hdec. validate_open. rewrite Hdec. eexists. split; reflexivity.
  - intros segs claims -> Hdec Halg. validate_open. rewrite Hdec. cbn [Method].
    rewrite Halg. eexists. split; reflexivity.
  - intros segs claims -> Hdec Halg Hsig. validate_open. rewrite Hdec. cbn [Method].
    rewrite Halg. cbn [negb]. apply String.eqb_neq in Hsig. rewrite Hsig.
    eexists. split; reflexivity.
Qed.


Lemma ValidateJWT_frame `{Primitives} s tok w :
  let w' := snd (services.ValidateJWT s tok w) in
  users w' = users w /\ faults w' = faults w /\ entropy w' = entropy w
  /\ (w' = w \/ w' = snd (time_Now w)).
Proof.
  validate_open.
  destruct tok as [segs|]; [|cbn; auto].
  destruct (decode_claims (seg_claims segs)) as [claims|]; [|cbn; auto].
  cbn [Method].
  destruct (is_SigningMethodHMAC (seg_alg segs)); cbn [negb]; [|cbn; auto].
  destruct (negb _); [cbn; auto|].
  assert (F : users (snd (time_Now w)) = users w
              /\ faults (snd (time_Now w)) = faults w
              /\ entropy (snd (time_Now w)) = entropy w).
  { unfold time_Now. cbn. destruct (later w); cbn; auto. }
  unfold time_Now in F. cbn [snd] in F.
  destruct (verifyExpiresAt claims (now w) ++ verifyNotBefore claims (now w))%list;
    [|cbn; intuition].
  cbn [Valid Claims negb].
  repeat match goal with
         | |- context [match lookup ?k ?m with _ => _ end] =>
             destruct (lookup k m) as [[| ? | ? |]|]
         end; cbn; intuition.
Qed.

(** X4.  Verification works on the token and the clock alone: whatever
    the token and the outcome, the users table, the connection and the
    random source are as before, and the clock has been read at most
    once. *)
Theorem ValidateJWT_touches_only_the_clock `{Primitives} s tok w :
  let w' := snd (services.ValidateJWT s tok w) in
  users w' = users w /\ faults w' = faults w /\ entropy w' = entropy w
  /\ (w' = w \/ w' = snd (time_Now w)).
Proof.
  exact (ValidateJWT_frame s tok w).
Qed.

(** ** generateJTI *)


Lemma take_entropy_length n e : List.length (fst (take_entropy n e)) = n.
Proof.
  revert e. induction n as [|n IH]; intros e; cbn; [reflexivity|].
  destruct e as [|b e].
  - specialize (IH []). destruct (take_entropy n []). cbn in *. now rewrite IH.
  - specialize (IH e). destruct (take_entropy n e). cbn in *. now rewrite IH.
Qed.

Lemma hex_digit_is_lower_hex n : is_lower_hex (services.hex_digit n) = true.
Proof.
  unfold services.hex_digit.
  repeat match goal with
         | |- context [match ?x with _ => _ end] => destruct x
         end; reflexivity.
Qed.

Lemma hex_EncodeToString_spec bytes :
  String.length (services.hex_EncodeToString bytes) = (2 * List.length bytes)%nat
  /\ forallb is_lower_hex (list_ascii_of_string (services.hex_EncodeToString bytes)) = true.
Proof.
  induction bytes as [|b bs [IHl IHf]]; [split; reflexivity|].
  split.
  - cbn [services.hex_EncodeToString String.length List.length]. rewrite IHl. lia.
  - cbn [services.hex_EncodeToString list_ascii_of_string forallb].
    rewrite !hex_digit_is_lower_hex, IHf. reflexivity.
Qed.

(** X5.  The token identifier is always 32 lowercase hexadecimal digits,
    and drawing it leaves the table alone. *)
Theorem generateJTI_is_32_hex_digits w :
  let jti := fst (services.generateJTI w) in
  String.length jti = 32%nat
  /\ forallb is_lower_hex (list_ascii_of_string jti) = true
  /\ users (snd (services.generateJTI w)) = users w.
Proof.
  unfold services.generateJTI. run.
  pose proof (take_entropy_length 16 (entropy w)) as Hl.
  destruct (take_entropy 16 (entropy w)) as [bytes e']. cbn in *.
  destruct (hex_EncodeToString_spec bytes) as [H1 H2].
  rewrite H1, Hl. auto.
Qed.

(** ** Login, beyond its errors *)




(** X8.  A Login that fails leaves the users table as it was. *)
Theorem Login_failure_leaves_table `{Primitives} s req w r w' :
  services.Login s req w = (r, w') ->
  (forall resp, r <> Ok resp) ->
  users w' = users w.
Proof.
  unfold services.Login. unfold bind at 1.
  destruct (services.GetUserByUsername s (login_Username req) w)
    as [[user|e|msg] w1] eqn:E1;
    unfold services.GetUserByUsername, database.GetUserByUsername in E1;
    destruct (lookup_frame _ _ _ _ E1) as (U1 & _).
  - destruct (IsActive user); cbn [negb].
    + destruct (bcrypt_CompareHashAndPassword (Password user) (login_Password req)).
      * intros Hq _. inversion Hq; subst. exact U1.
      * intros Hq Hno. exfalso.
        destruct (Login_after_checks_Ok s user w1) as (resp & Hr).
        rewrite Hq in Hr. cbn in Hr. exact (Hno resp Hr).
    + intros Hq _. inversion Hq; subst. exact U1.
  - intros Hq _. inversion Hq; subst. exact U1.
  - intros Hq _. inversion Hq; subst. exact U1.
Qed.

(** ** Register, beyond its checks *)


(** Runs the part of Register behind the two checks to its outcomes. *)
Ltac register_run w :=
  unfold database.InsertUser; run;
  destruct (take_entropy 16 (entropy w)) as [salt en'] eqn:Hsalt;
  destruct w as [us fs t l en]; cbn in *;
  match goal with
  | |- context [bcrypt_GenerateFromPassword ?a ?b ?c] =>
      destruct (bcrypt_GenerateFromPassword a b c) eqn:Hhash
  end; cbn;
  [ destruct l as [|t1 [|t2 [|t3 l3]]]; destruct fs as [|[] fs]; cbn | | ].


Lemma Register_Ok_inv `{Primitives} s req w view w' :
  services.Register s req w = (Ok view, w') ->
  let role := if String.eqb (create_Role req) "" then "user" else create_Role req in
  Username view = create_Username req
  /\ Email view = create_Email req
  /\ Password view = ""
  /\ Role view = role
  /\ IsActive view = true
  /\ LastLogin view = None
  /\ exists salt hashed,
       bcrypt_GenerateFromPassword salt (create_Password req) bcrypt_DefaultCost
       = Ok hashed
       /\ users w' = (users w ++
                      [mkUser database.column_default_id (create_Username req)
                              (create_Email req) hashed role true
                              (database.toDateTime (CreatedAt view))
                              (database.toDateTime (UpdatedAt view)) None])%list.
Proof.
  unfold services.Register. unfold bind at 1.
  destruct (services.GetUserByUsername s (create_Username req) w)
    as [[u|e|m] w1] eqn:E1; [discriminate| |];
    unfold services.GetUserByUsername, database.GetUserByUsername in E1;
    destruct (lookup_frame _ _ _ _ E1) as (U1 & _); clear E1;
    unfold bind at 1;
    (destruct (services.GetUserByEmail s (create_Email req) w1)
      as [[u|e2|m2] w2] eqn:E2; [discriminate| |]);
    unfold services.GetUserByEmail, database.GetUserByEmail in E2;
    destruct (lookup_frame _ _ _ _ E2) as (U2 & _); clear E2;
    register_run w2; intros Hq; inversion Hq; subst; cbn;
    repeat (split; [reflexivity|]);
    exists salt; eexists; (split; [exact Hhash|]);
    rewrite ?U1; reflexivity.
Qed.

(** X10.  A successful Register returns the requested username and
    email, role "user" when none was asked for, an active account and a
    blank password; the table has gained one row with the same data, the
    bcrypt hash of the password in place of the password, the default
    identifier, and, for a clock within the range of the DateTime
    columns, the whole seconds of the two times of the view. *)
Theorem Register_view_and_stored_row `{Primitives} s req w view w' :
  services.Register s req w = (Ok view, w') ->
  let role := if String.eqb (create_Role req) "" then "user" else create_Role req in
  Username view = create_Username req
  /\ Email view = create_Email req
  /\ Password view = ""
  /\ Role view = role
  /\ IsActive view = true
  /\ LastLogin view = None
  /\ exists salt hashed created updated,
       bcrypt_GenerateFromPassword salt (create_Password req) bcrypt_DefaultCost
       = Ok hashed
       /\ users w' = (users w ++
                      [mkUser database.column_default_id (create_Username req)
                              (create_Email req) hashed role true
                              created updated None])%list
       /\ (in_DateTime (CreatedAt view) ->
           created = Unix (CreatedAt view) * Second
           /\ created <= CreatedAt view < created + Second)
       /\ (in_DateTime (UpdatedAt view) ->
           updated = Unix (UpdatedAt view) * Second
           /\ updated <= UpdatedAt view < updated + Second).
Proof.
  intros HR role.
  destruct (Register_Ok_inv s req w view w' HR)
    as (H1 & H2 & H3 & H4 & H5 & H6 & salt & hashed & Hh & HU).
  repeat (split; [assumption|]).
  exists salt, hashed, (database.toDateTime (CreatedAt view)),
         (database.toDateTime (UpdatedAt view)).
  split; [exact Hh|]. split; [exact HU|].
  assert (Hsec : forall t, database.toDateTime t = Unix t * Second
                           /\ database.toDateTime t <= t < database.toDateTime t + Second).
  { intros t. unfold database.toDateTime, Unix, Second. split; [reflexivity|].
    pose proof (Z.div_mod t 1000000000 ltac:(lia)) as Hd.
    pose proof (Z.mod_pos_bound t 1000000000 ltac:(lia)) as Hm. lia. }
  split; intros _; apply Hsec.
Qed.

(** X11.  A Register that does not succeed leaves the users table as it
    was. *)
Theorem Register_failure_leaves_table `{Primitives} s req w r w' :
  services.Register s req w = (r, w') ->
  (forall view, r <> Ok view) ->
  users w' = users w.
Proof.
  unfold services.Register. unfold bind at 1.
  destruct (services.GetUserByUsername s (create_Username req) w)
    as [[u|e|m] w1] eqn:E1;
    unfold services.GetUserByUsername, database.GetUserByUsername in E1;
    destruct (lookup_frame _ _ _ _ E1) as (U1 & _); clear E1;
    [intros Hq _; inversion Hq; subst; exact U1 | | ];
    unfold bind at 1;
    (destruct (services.GetUserByEmail s (create_Email req) w1)
      as [[u|e2|m2] w2] eqn:E2);
    unfold services.GetUserByEmail, database.GetUserByEmail in E2;
    destruct (lookup_frame _ _ _ _ E2) as (U2 & _); clear E2;
    try (intros Hq _; inversion Hq; subst; congruence);
    register_run w2; intros Hq Hno; inversion Hq; subst; cbn;
    try congruence;
    exfalso; eapply Hno; reflexivity.
Qed.

(** On a healthy connection the two checks find nothing to object to. *)
Lemma Register_on_a_healthy_connection `{Primitives} s req w :
  faults w = [] ->
  (forall salt, exists hashed,
      bcrypt_GenerateFromPassword salt (create_Password req) bcrypt_DefaultCost
      = Ok hashed) ->
  exists view w' row,
    services.Register s req w = (Ok view, w')
    /\ users w' = (users w ++ [row])%list
    /\ Username row = create_Username req
    /\ Email row = create_Email req
    /\ faults w' = [].
Proof.
  intros Hf Hhash.
  unfold services.Register, services.GetUserByUsername, services.GetUserByEmail,
         database.GetUserByUsername, database.GetUserByEmail.
  unfold bind at 1. rewrite (QueryRow_Scan_healthy _ _ Hf).
  unfold bind at 1. rewrite (QueryRow_Scan_healthy _ _ Hf).
  unfold database.InsertUser. run.
  destruct (take_entropy 16 (entropy w)) as [salt en'].
  destruct (Hhash salt) as (hashed & Hh).
  destruct w as [us fs t l en]. cbn in *. subst fs. rewrite Hh.
  destruct l as [|t1 [|t2 [|t3 l3]]]; cbn; do 3 eexists;
    (split; [reflexivity|]); cbn; auto.
Qed.

(** X12.  Register does not keep usernames and emails unique.  The
    lookups of its two checks return no record (a row they find is
    refused by the Scan), so on a healthy connection a request whose
    password bcrypt hashes is accepted whatever the table holds; the same
    request is then accepted once more, and the table has gained two rows
    with the one username and email. *)
Theorem Register_accepts_a_taken_name `{Primitives} s req w :
  faults w = [] ->
  (forall salt, exists hashed,
      bcrypt_GenerateFromPassword salt (create_Password req) bcrypt_DefaultCost
      = Ok hashed) ->
  exists view w' row view2 w'' row2,
    services.Register s req w = (Ok view, w')
    /\ users w' = (users w ++ [row])%list
    /\ services.Register s req w' = (Ok view2, w'')
    /\ users w'' = (users w ++ [row; row2])%list
    /\ Username row = create_Username req /\ Email row = create_Email req
    /\ Username row2 = create_Username req /\ Email row2 = create_Email req.
Proof.
  intros Hf Hhash.
  destruct (Register_on_a_healthy_connection s req w Hf Hhash)
    as (view & w' & row & E1 & U1 & N1 & M1 & Hf').
  destruct (Register_on_a_healthy_connection s req w' Hf' Hhash)
    as (view2 & w'' & row2 & E2 & U2 & N2 & M2 & _).
  exists view, w', row, view2, w'', row2.
  split; [exact E1|]. split; [exact U1|]. split; [exact E2|].
  split; [rewrite U2, U1, <- app_assoc; reflexivity|]. auto.
Qed.

(** ** UpdateUser, whatever the request *)


(** The uniqueness check on the username, as UpdateUser runs it: it ends
    in an error or hands on the user with the requested name. *)
Lemma UpdateUser_username_step s userID req user w r w1 :
  (if String.eqb (update_Username req) "" then ret (Ok user) else
   existingUser <- services.GetUserByUsername s (update_Username req) ;;
   match existingUser with
   | Ok existing =>
       if negb (ID existing =? userID)
       then ret (Err (Errorf ("username " ++ update_Username req
                                ++ " is already taken")))
       else ret (Ok (set_Username user (update_Username req)))
   | _ => ret (Ok (set_Username user (update_Username req)))
   end)%go w = (r, w1) ->
  users w1 = users w /\ now w1 = now w /\ later w1 = later w
  /\ forall user', r = Ok user' ->
       user' = if String.eqb (update_Username req) "" then user
               else set_Username user (update_Username req).
Proof.
  destruct (String.eqb (update_Username req) "").
  - unfold ret. intros Hq. inversion Hq; subst. repeat split; auto.
    intros user' Hu. congruence.
  - unfold bind at 1.
    destruct (services.GetUserByUsername s (update_Username req) w)
      as [[ex|e|m] w2] eqn:E;
      unfold services.GetUserByUsername, database.GetUserByUsername in E;
      destruct (lookup_frame _ _ _ _ E) as (U & N & L);
      try destruct (negb (ID ex =? userID)); unfold ret; intros Hq;
      inversion Hq; subst; repeat split; auto; intros user' Hu; congruence.
Qed.

Lemma UpdateUser_email_step s userID req user w r w1 :
  (if String.eqb (update_Email req) "" then ret (Ok user) else
   existingUser <- services.GetUserByEmail s (update_Email req) ;;
   match existingUser with
   | Ok existing =>
       if negb (ID existing =? userID)
       then ret (Err (Errorf ("email " ++ update_Email req
                                ++ " is already taken")))
       else ret (Ok (set_Email user (update_Email req)))
   | _ => ret (Ok (set_Email user (update_Email req)))
   end)%go w = (r, w1) ->
  users w1 = users w /\ now w1 = now w /\ later w1 = later w
  /\ forall user', r = Ok user' ->
       user' = if String.eqb (update_Email req) "" then user
               else set_Email user (update_Email req).
Proof.
  destruct (String.eqb (update_Email req) "").
  - unfold ret. intros Hq. inversion Hq; subst. repeat split; auto.
    intros user' Hu. congruence.
  - unfold bind at 1.
    destruct (services.GetUserByEmail s (update_Email req) w)
      as [[ex|e|m] w2] eqn:E;
      unfold services.GetUserByEmail, database.GetUserByEmail in E;
      destruct (lookup_frame _ _ _ _ E) as (U & N & L);
      try destruct (negb (ID ex =? userID)); unfold ret; intros Hq;
      inversion Hq; subst; repeat split; auto; intros user' Hu; congruence.
Qed.

(** X15.  An UpdateUser that does not succeed leaves the users table as
    it was. *)
Theorem UpdateUser_failure_leaves_table s userID req w r w' :
  services.UpdateUser s userID req w = (r, w') ->
  (forall view, r <> Ok view) ->
  users w' = users w.
Proof.
  unfold services.UpdateUser. unfold bind at 1.
  destruct (services.GetUserByID s userID w) as [[u|e|m] w1] eqn:E1;
    unfold services.GetUserByID, database.GetUserByID in E1;
    destruct (lookup_frame _ _ _ _ E1) as (U1 & _); clear E1;
    [|intros Hq _; inversion Hq; subst; exact U1
     |intros Hq _; inversion Hq; subst; exact U1].
  unfold bind at 1.
  match goal with
  | |- (let (a, w') := ?step w1 in _) = _ -> _ =>
      destruct (step w1) as [named w2] eqn:E2
  end.
  destruct (UpdateUser_username_step _ _ _ _ _ _ _ E2) as (U2 & _). clear E2.
  destruct named as [user2|e|m];
    [|intros Hq _; inversion Hq; subst; congruence
     |intros Hq _; inversion Hq; subst; congruence].
  unfold bind at 1.
  match goal with
  | |- (let (a, w') := ?step w2 in _) = _ -> _ =>
      destruct (step w2) as [mailed w3] eqn:E3
  end.
  destruct (UpdateUser_email_step _ _ _ _ _ _ _ E3) as (U3 & _). clear E3.
  destruct mailed as [user3|e|m];
    [|intros Hq _; inversion Hq; subst; congruence
     |intros Hq _; inversion Hq; subst; congruence].
  unfold database.UpdateUser. run.
  destruct w3 as [us fs t l en]. cbn in U3.
  destruct l as [|t1 l]; destruct fs as [|[] fs]; cbn; intros Hq Hno;
    inversion Hq; subst; cbn; try congruence; exfalso; eapply Hno; reflexivity.
Qed.

(** ** ChangePassword *)


(** X16.  ChangePassword changes no password.  It reads the record by
    its identifier first, and that lookup returns none: the answer is
    "user not found" around the error of the lookup, which for a user the
    directory holds, on a healthy connection, is the refusal of the Scan
    of the [id] column; the current password is never compared and the
    table never written. *)
Theorem ChangePassword_never_finds_the_user `{Primitives} s userID req w :
  (exists e w',
     services.ChangePassword s userID req w = (Err (Errorf_w "user not found" e), w')
     /\ users w' = users w)
  /\ (forall u,
        faults w = [] ->
        database.select_by_id userID (users w) = Some u ->
        services.ChangePassword s userID req w
        = (Err (Errorf_w "user not found" (conversion_refused "id")), w)).
Proof.
  destruct (QueryRow_Scan_spec (database.select_by_id userID) w)
    as (e & w' & E & U & _ & _ & _ & Hh & _).
  assert (R : services.ChangePassword s userID req w
              = (Err (Errorf_w "user not found" e), w')).
  { unfold services.ChangePassword, services.GetUserByID, database.GetUserByID.
    unfold bind at 1. rewrite E. reflexivity. }
  split.
  - exists e, w'. split; [exact R | exact U].
  - intros u Hf Hsel. destruct (Hh Hf) as (-> & He).
    rewrite Hsel in He. subst e. exact R.
Qed.

(** The change of alice's password, with her current password. *)
Example ChangePassword_of_alice :
  database.select_by_id 7 (users example.small_world) = Some example.alice
  /\ bcrypt_CompareHashAndPassword (Primitives := example.plain)
       (Password example.alice) "secret1" = None
  /\ services.ChangePassword (H := example.plain) example.svc 7
       (mkUserChangePasswordRequest "secret1" "n3wpass") example.small_world
     = (Err (Errorf_w "user not found" (conversion_refused "id")), example.small_world).
Proof.
  repeat split; vm_compute; reflexivity.
Qed.

(** ** DeleteUser *)


(** X19.  On a healthy connection DeleteUser succeeds whether or not a
    row has the identifier: afterwards no row has it, a lookup by it finds
    nothing, and the other rows are kept in order.  When the call on the
    connection fails, the error is wrapped and the table is as before. *)
Theorem DeleteUser_removes_every_row_of_the_id s userID w :
  (faults w = [] ->
   exists w',
     services.DeleteUser s userID w = (None, w')
     /\ users w' = filter (fun r => negb (ID r =? userID)) (users w)
     /\ database.select_by_id userID (users w') = None
     /\ fst (services.GetUserByID s userID w') = Err sql_ErrNoRows)
  /\ (forall fs, faults w = true :: fs ->
      exists w',
        services.DeleteUser s userID w
        = (Some (Errorf_w "failed to delete user" driver_error), w')
        /\ users w' = users w).
Proof.
  split.
  - intros Hf. unfold services.DeleteUser, database.DeleteUser. run. rewrite Hf. cbn.
    eexists. split; [reflexivity|]. cbn.
    assert (Hnone : database.select_by_id userID
                      (filter (fun r => negb (ID r =? userID)) (users w)) = None).
    { unfold database.select_by_id.
      destruct (find _ _) as [r|] eqn:E; [|reflexivity].
      apply find_some in E. destruct E as [Hin Hid].
      apply filter_In in Hin. destruct Hin as [_ Hne].
      rewrite Hid in Hne. discriminate. }
    split; [reflexivity|]. split; [exact Hnone|].
    unfold services.GetUserByID, database.GetUserByID.
    rewrite QueryRow_Scan_healthy by exact Hf. cbn [users fst].
    rewrite Hnone. reflexivity.
  - intros fs Hf. unfold services.DeleteUser, database.DeleteUser. run. rewrite Hf. cbn.
    eexists. split; reflexivity.
Qed.

(** ** The gate, when it turns a request away or has no role to ask for *)


(** X23.  A request the skipper does not exempt is answered 401 without
    the downstream handler: "Missing Authorization header" without the
    header, "Invalid Authorization header format" without the Bearer
    prefix, "Empty token" for a bare prefix, and "Invalid token" for every
    error of verification, whatever its kind. *)
Theorem JWTWithConfig_rejections `{Primitives} segments_of config next c w :
  match middleware.config_Skipper config with
  | None => middleware.DefaultSkipper
  | Some f => f
  end c = false ->
  (Authorization c = "" ->
   middleware.JWTWithConfig segments_of config next c w
   = JSON c StatusUnauthorized (error_body "Missing Authorization header") w)
  /\ (Authorization c <> "" -> prefix "Bearer " (Authorization c) = false ->
      middleware.JWTWithConfig segments_of config next c w
      = JSON c StatusUnauthorized (error_body "Invalid Authorization header format") w)
  /\ (Authorization c = "Bearer " ->
      middleware.JWTWithConfig segments_of config next c w
      = JSON c StatusUnauthorized (error_body "Empty token") w)
  /\ (forall e w1,
        prefix "Bearer " (Authorization c) = true ->
        middleware.TrimPrefix_Bearer (Authorization c) <> "" ->
        services.ValidateJWT (middleware.config_AuthService config)
          (segments_of (middleware.TrimPrefix_Bearer (Authorization c))) w
        = (Err e, w1) ->
        middleware.JWTWithConfig segments_of config next c w
        = JSON c StatusUnauthorized (error_body "Invalid token") w1).
Proof.
  intros Hskip. unfold middleware.JWTWithConfig. rewrite Hskip.
  split; [|split; [|split]].
  - intros ->. reflexivity.
  - intros Hne Hpre. apply String.eqb_neq in Hne. rewrite Hne, Hpre. reflexivity.
  - intros ->. reflexivity.
  - intros e w1 Hpre Htok Hval.
    assert (Hne : String.eqb (Authorization c) "" = false)
      by (destruct (Authorization c); [discriminate Hpre | reflexivity]).
    apply String.eqb_neq in Htok. rewrite Hne, Hpre, Htok. cbn [negb].
    unfold bind. rewrite Hval. reflexivity.
Qed.

(** X24.  The gates without a required role (JWT, RequireUser) run the
    downstream handler for every token that verifies, whatever its role,
    on the context with identifier, username and role bound, and hand it
    the table untouched. *)
Theorem JWT_gate_forwards_every_role `{Primitives} segments_of authService next c w
        payload w1 :
  prefix "Bearer " (Authorization c) = true ->
  middleware.TrimPrefix_Bearer (Authorization c) <> "" ->
  services.ValidateJWT authService
    (segments_of (middleware.TrimPrefix_Bearer (Authorization c))) w = (Ok payload, w1) ->
  let bound := Set_ (Set_ (Set_ c "user_id" (AInt64 (UserID payload)))
                          "username" (AString (payload_Username payload)))
                    "user_role" (AString (payload_Role payload)) in
  middleware.JWT segments_of authService next c w = next bound w1
  /\ middleware.RequireUser segments_of authService next c w = next bound w1
  /\ users w1 = users w /\ faults w1 = faults w.
Proof.
  intros Hpre Htok Hval bound.
  assert (Hne : String.eqb (Authorization c) "" = false)
    by (destruct (Authorization c); [discriminate Hpre | reflexivity]).
  apply String.eqb_neq in Htok.
  assert (Hrun : middleware.JWTWithConfig segments_of
                   (middleware.mkJWTConfig (Some middleware.DefaultSkipper) authService "")
                   next c w = next bound w1).
  { unfold middleware.JWTWithConfig.
    cbn [middleware.config_Skipper middleware.config_AuthService middleware.RequiredRole].
    unfold middleware.DefaultSkipper. rewrite Hne, Hpre, Htok. cbn [negb].
    unfold bind. rewrite Hval. reflexivity. }
  split; [exact Hrun|]. split; [exact Hrun|].
  pose proof (ValidateJWT_frame authService
                (segments_of (middleware.TrimPrefix_Bearer (Authorization c))) w) as F.
  cbv zeta in F. rewrite Hval in F. cbn [snd] in F. tauto.
Qed.

(** ** The handler of the user list and its route *)


Lemma handler_GetUsers_cases h c w :
  exists c' w' code body,
    handlers.GetUsers h c w = (Ok c', w')
    /\ response c' = Some (code, body)
    /\ store c' = store c
    /\ users w' = users w
    /\ (Get c "user_role" <> Some (AString "admin") ->
        code = StatusForbidden
        /\ body = error_body "Access denied - admin role required"
        /\ w' = w)
    /\ (Get c "user_role" = Some (AString "admin") ->
        (code = StatusOK /\ exists d, ResponseData body = DataUsers d)
        \/ (code = StatusInternalServerError
            /\ body = error_body "Failed to get users")).
Proof.
  unfold handlers.GetUsers, handlers.GetUsers_calling.
  destruct (Get c "user_role") as [[z|role]|] eqn:Hrole; cbn [negb].
  1,3: unfold JSON, ret; do 4 eexists; (split; [reflexivity|]); cbn;
       repeat split; auto; intros Hq; discriminate Hq.
  destruct (String.eqb_spec role "admin") as [->|Hne]; cbn [negb].
  - set (page := if fst (handlers.strconv_Atoi (QueryParam c "page")) <? 1 then 1
                 else fst (handlers.strconv_Atoi (QueryParam c "page"))).
    set (perPage := if (fst (handlers.strconv_Atoi (QueryParam c "per_page")) <? 1)
                       || (100 <? fst (handlers.strconv_Atoi (QueryParam c "per_page")))
                    then 10
                    else fst (handlers.strconv_Atoi (QueryParam c "per_page"))).
    unfold services.GetUsers, bind.
    destruct (database_GetUsers_refused page perPage (QueryParam c "role") w)
      as (e & w1 & E & HU & _).
    rewrite E. unfold JSON, ret. do 4 eexists.
    (split; [reflexivity|]); cbn [response store];
      (split; [reflexivity|]); (split; [reflexivity|]); (split; [exact HU|]);
      (split; [intros Hq; congruence|]); intros _.
    right. split; reflexivity.
  - unfold JSON, ret. do 4 eexists. split; [reflexivity|]. cbn.
    repeat split; auto. intros Hq. congruence.
Qed.

(** X25.  The handler of the user list always answers, never panics
    (the page size it passes is never zero) and never writes to the
    table: 403 "Access denied - admin role required", without a call on
    the connection, unless the context binds the role "admin"; otherwise
    200 with the listing or 500 "Failed to get users". *)
Theorem handler_GetUsers_always_answers h c w :
  exists c' w' code body,
    handlers.GetUsers h c w = (Ok c', w')
    /\ response c' = Some (code, body)
    /\ store c' = store c
    /\ users w' = users w
    /\ (Get c "user_role" <> Some (AString "admin") ->
        code = StatusForbidden
        /\ body = error_body "Access denied - admin role required"
        /\ w' = w)
    /\ (Get c "user_role" = Some (AString "admin") ->
        (code = StatusOK /\ exists d, ResponseData body = DataUsers d)
        \/ (code = StatusInternalServerError
            /\ body = error_body "Failed to get users")).
Proof.
  exact (handler_GetUsers_cases h c w).
Qed.

(** X26.  The route of the user list behind RequireAdmin: a verified
    token of another role is answered 403 "Insufficient permissions"
    before the handler; a verified admin token reaches the handler, whose
    own role check then never refuses: the answer is 200 with the listing
    or 500, and the table is never written. *)
Theorem admin_users_route_is_admin_only `{Primitives} segments_of jwtSecret c w
        payload w1 :
  prefix "Bearer " (Authorization c) = true ->
  middleware.TrimPrefix_Bearer (Authorization c) <> "" ->
  services.ValidateJWT (routes.authService jwtSecret)
    (segments_of (middleware.TrimPrefix_Bearer (Authorization c))) w = (Ok payload, w1) ->
  exists c' w' code body,
    routes.admin_users segments_of jwtSecret c w = (Ok c', w')
    /\ response c' = Some (code, body)
    /\ users w' = users w
    /\ (payload_Role payload <> "admin" ->
        code = StatusForbidden /\ body = error_body "Insufficient permissions"
        /\ store c' = store c /\ w' = w1)
    /\ (payload_Role payload = "admin" ->
        Get c' "user_id" = Some (AInt64 (UserID payload))
        /\ ((code = StatusOK /\ exists d, ResponseData body = DataUsers d)
            \/ (code = StatusInternalServerError
                /\ body = error_body "Failed to get users"))).
Proof.
  intros Hpre Htok Hval.
  assert (Hne : String.eqb (Authorization c) "" = false)
    by (destruct (Authorization c); [discriminate Hpre | reflexivity]).
  apply String.eqb_neq in Htok.
  pose proof (ValidateJWT_frame (routes.authService jwtSecret)
                (segments_of (middleware.TrimPrefix_Bearer (Authorization c))) w) as F.
  cbv zeta in F. rewrite Hval in F. cbn [snd] in F. destruct F as (FU & _).
  unfold routes.admin_users, middleware.RequireAdmin, middleware.JWTWithConfig.
  cbn [middleware.config_Skipper middleware.config_AuthService middleware.RequiredRole].
  unfold middleware.DefaultSkipper. rewrite Hne, Hpre, Htok. cbn [negb].
  unfold bind at 1. rewrite Hval. cbn [String.eqb negb andb].
  change (String.eqb "admin" "") with false. cbn [negb andb].
  destruct (String.eqb_spec (payload_Role payload) "admin") as [Hadm|Hadm]; cbn [negb].
  - set (bound := Set_ (Set_ (Set_ c "user_id" (AInt64 (UserID payload)))
                             "username" (AString (payload_Username payload)))
                       "user_role" (AString (payload_Role payload))).
    destruct (handler_GetUsers_cases (routes.authHandler jwtSecret) bound w1)
      as (c' & w' & code & body & E & Hresp & Hstore & HU & _ & Hok).
    exists c', w', code, body. split; [exact E|]. split; [exact Hresp|].
    split; [congruence|]. split; [intros Hq; contradiction|]. intros _.
    split.
    + unfold Get. rewrite Hstore. reflexivity.
    + apply Hok. unfold bound, Get. cbn. rewrite Hadm. reflexivity.
  - unfold JSON, ret. do 4 eexists. split; [reflexivity|]. cbn.
    split; [reflexivity|]. split; [exact FU|].
    split; [auto|]. intros Hq. contradiction.
Qed.

(** ** The further properties on the data of the examples *)


Lemma ValidateJWT_rejection_kinds_witness :
  (exists e, fst (services.ValidateJWT (H := example.plain) example.svc Garbled
                    example.small_world) = Err e
             /\ errors_Is e ErrTokenMalformed = true)
  /\ (exists e, fst (services.ValidateJWT (H := example.plain) example.svc
                       samples.oversized_token example.small_world) = Err e
                /\ errors_Is e ErrTokenMalformed = true)
  /\ (exists e, fst (services.ValidateJWT (H := example.plain) example.svc
                       samples.none_token example.small_world) = Err e
                /\ errors_Is e ErrTokenUnverifiable = true)
  /\ (exists e, fst (services.ValidateJWT (H := example.plain) example.svc
                       samples.forged_token example.small_world) = Err e
                /\ errors_Is e ErrTokenSignatureInvalid = true).
Proof.
  split; [|split; [|split]].
  - exact (proj1 (ValidateJWT_rejection_kinds (H := example.plain) example.svc
                    Garbled example.small_world) eq_refl).
  - exact (proj1 (proj2 (ValidateJWT_rejection_kinds (H := example.plain) example.svc
                           samples.oversized_token example.small_world))
             _ eq_refl ltac:(vm_compute; reflexivity)).
  - exact (proj1 (proj2 (proj2 (ValidateJWT_rejection_kinds (H := example.plain)
                                  example.svc samples.none_token example.small_world)))
             _ _ eq_refl ltac:(vm_compute; reflexivity) eq_refl).
  - exact (proj2 (proj2 (proj2 (ValidateJWT_rejection_kinds (H := example.plain)
                                  example.svc samples.forged_token example.small_world)))
             _ _ eq_refl ltac:(vm_compute; reflexivity) eq_refl
             ltac:(vm_compute; discriminate)).
Defined.


Lemma Login_failure_leaves_table_witness :
  exists w',
    services.Login (H := example.plain) example.svc
                   (mkLoginRequest "bob" "hunter2") example.small_world
    = (Err (Errorf "invalid credentials"), w')
    /\ users w' = users example.small_world.
Proof.
  assert (E : exists w',
             services.Login (H := example.plain) example.svc
               (mkLoginRequest "bob" "hunter2") example.small_world
             = (Err (Errorf "invalid credentials"), w'))
    by (vm_compute; eauto).
  destruct E as (w' & E). exists w'. split; [exact E|].
  apply (Login_failure_leaves_table (H := example.plain) example.svc _ _ _ w' E).
  intros resp Hq. discriminate Hq.
Defined.

Lemma Register_view_and_stored_row_witness :
  exists view w',
    services.Register (H := example.plain) example.svc example.alice_req
                      example.empty_world = (Ok view, w')
    /\ Role view = "user" /\ Password view = "" /\ IsActive view = true
    /\ map Password (users w') = ["$2a$secret1"]
    /\ CreatedAt view = 1700000000 * Second + 1
    /\ map CreatedAt (users w') = [1700000000 * Second].
Proof.
  assert (E : exists view w',
             services.Register (H := example.plain) example.svc example.alice_req
                               example.empty_world = (Ok view, w')
             /\ CreatedAt view = 1700000000 * Second + 1)
    by (eexists; eexists; split; vm_compute; reflexivity).
  destruct E as (view & w' & E & HC). exists view, w'. split; [exact E|].
  destruct (Register_view_and_stored_row (H := example.plain) example.svc _ _ view w' E)
    as (_ & _ & Hpw & Hrole & Hact & _ & salt & hashed & created & updated
        & Hh & HU & Hc & _).
  assert (R : in_DateTime (CreatedAt view)) by (rewrite HC; concrete).
  destruct (Hc R) as (Hc1 & _).
  split; [exact Hrole|]. split; [exact Hpw|]. split; [exact Hact|].
  rewrite HU. vm_compute in Hh. inversion Hh.
  split; [reflexivity|]. split; [exact HC|].
  cbn [map app users example.empty_world CreatedAt]. rewrite Hc1, HC.
  vm_compute. reflexivity.
Defined.

Lemma Register_failure_leaves_table_witness :
  exists w',
    services.Register (H := example.plain) example.svc example.alice_req
                      samples.failing_insert_world
    = (Err (Errorf_w "failed to create user" driver_error), w')
    /\ users w' = users samples.failing_insert_world.
Proof.
  assert (E : exists w',
             services.Register (H := example.plain) example.svc example.alice_req
                               samples.failing_insert_world
             = (Err (Errorf_w "failed to create user" driver_error), w'))
    by (vm_compute; eauto).
  destruct E as (w' & E). exists w'. split; [exact E|].
  apply (Register_failure_leaves_table (H := example.plain) example.svc _ _ _ w' E).
  intros view Hq. discriminate Hq.
Defined.

Lemma Register_accepts_a_taken_name_witness :
  faults example.small_world = []
  /\ database.select_by_username "alice" (users example.small_world)
     = Some example.alice
  /\ exists view w' view2 w'',
       services.Register (H := example.plain) example.svc example.alice_req
                         example.small_world = (Ok view, w')
       /\ services.Register (H := example.plain) example.svc example.alice_req w'
          = (Ok view2, w'')
       /\ map Username (users w'') = ["alice"; "bob"; "carol"; "alice"; "alice"].
Proof.
  assert (F : faults example.small_world = []) by reflexivity.
  assert (B : forall salt, exists hashed,
               bcrypt_GenerateFromPassword (Primitives := example.plain) salt
                 (create_Password example.alice_req) bcrypt_DefaultCost = Ok hashed)
    by (intros salt; eexists; reflexivity).
  split; [exact F|]. split; [reflexivity|].
  destruct (Register_accepts_a_taken_name (H := example.plain) example.svc
              example.alice_req example.small_world F B)
    as (view & w' & row & view2 & w'' & row2 & E1 & _ & E2 & U2 & N1 & _ & N2 & _).
  exists view, w', view2, w''. split; [exact E1|]. split; [exact E2|].
  rewrite U2. cbn. rewrite N1, N2. reflexivity.
Defined.

Lemma UpdateUser_failure_leaves_table_witness :
  exists w',
    services.UpdateUser example.svc 99 (mkUserUpdateRequest "zoe" "" "" None)
                        example.small_world
    = (Err (Errorf_w "user not found" sql_ErrNoRows), w')
    /\ users w' = users example.small_world.
Proof.
  assert (E : exists w',
             services.UpdateUser example.svc 99 (mkUserUpdateRequest "zoe" "" "" None)
                                 example.small_world
             = (Err (Errorf_w "user not found" sql_ErrNoRows), w'))
    by (vm_compute; eauto).
  destruct E as (w' & E). exists w'. split; [exact E|].
  apply (UpdateUser_failure_leaves_table example.svc _ _ _ _ w' E).
  intros view Hq. discriminate Hq.
Defined.

Lemma DeleteUser_witness :
  (exists w',
     services.DeleteUser example.svc 8 example.small_world = (None, w')
     /\ users w' = [example.alice; example.carol])
  /\ (exists w',
        services.DeleteUser example.svc 99 example.small_world = (None, w')
        /\ users w' = users example.small_world)
  /\ (exists w',
        services.DeleteUser example.svc 8 samples.broken_world
        = (Some (Errorf_w "failed to delete user" driver_error), w')
        /\ users w' = users samples.broken_world).
Proof.
  split; [|split].
  - destruct (proj1 (DeleteUser_removes_every_row_of_the_id example.svc 8
                       example.small_world) eq_refl) as (w' & E & HU & _).
    exists w'. split; [exact E|]. rewrite HU. reflexivity.
  - destruct (proj1 (DeleteUser_removes_every_row_of_the_id example.svc 99
                       example.small_world) eq_refl) as (w' & E & HU & _).
    exists w'. split; [exact E|]. rewrite HU. reflexivity.
  - exact (proj2 (DeleteUser_removes_every_row_of_the_id example.svc 8
                    samples.broken_world) [] eq_refl).
Defined.

Lemma JWTWithConfig_rejections_witness :
  let admins := middleware.mkJWTConfig None example.svc "admin" in
  let gate := middleware.JWTWithConfig (H := example.plain) example.segments_of admins
                                       example.done in
  let answer (authorization : string) :=
    match fst (gate (example.request authorization []) example.small_world) with
    | Ok c => response c
    | _ => None
    end in
  answer "" = Some (StatusUnauthorized, error_body "Missing Authorization header")
  /\ answer "Basic YWxpY2U6c2VjcmV0MQ"
     = Some (StatusUnauthorized, error_body "Invalid Authorization header format")
  /\ answer "Bearer " = Some (StatusUnauthorized, error_body "Empty token")
  /\ answer "Bearer no.such.token"
     = Some (StatusUnauthorized, error_body "Invalid token").
Proof.
  intros admins gate answer.
  assert (S : forall a,
             match middleware.config_Skipper admins with
             | None => middleware.DefaultSkipper
             | Some f => f
             end (example.request a []) = false) by reflexivity.
  unfold answer, gate. split; [|split; [|split]].
  - rewrite (proj1 (JWTWithConfig_rejections (H := example.plain) example.segments_of
                      admins example.done (example.request "" []) example.small_world
                      (S "")) eq_refl).
    reflexivity.
  - rewrite (proj1 (proj2 (JWTWithConfig_rejections (H := example.plain)
                      example.segments_of admins example.done
                      (example.request "Basic YWxpY2U6c2VjcmV0MQ" [])
                      example.small_world (S _)))
               ltac:(cbn; discriminate) eq_refl).
    reflexivity.
  - rewrite (proj1 (proj2 (proj2 (JWTWithConfig_rejections (H := example.plain)
                      example.segments_of admins example.done
                      (example.request "Bearer " [])
                      example.small_world (S _)))) eq_refl).
    reflexivity.
  - rewrite (proj2 (proj2 (proj2 (JWTWithConfig_rejections (H := example.plain)
                      example.segments_of admins example.done
                      (example.request "Bearer no.such.token" [])
                      example.small_world (S _))))
               (Errorf_w "invalid token" (jwt_error [ErrTokenMalformed]))
               example.small_world eq_refl ltac:(vm_compute; discriminate)
               ltac:(vm_compute; reflexivity)).
    reflexivity.
Defined.

Lemma JWT_gate_forwards_every_role_witness :
  fst (middleware.JWT (H := example.plain) example.segments_of example.svc example.done
         (example.request "Bearer alice.token" []) example.small_world)
  = Ok (mkContext "Bearer alice.token" []
          [("user_role", AString "user"); ("username", AString "alice");
           ("user_id", AInt64 7)]
          (Some (StatusOK, mkAPIResponse true NoData "" "ok"))).
Proof.
  assert (V : services.ValidateJWT (H := example.plain) example.svc
                (example.segments_of (middleware.TrimPrefix_Bearer "Bearer alice.token"))
                example.small_world
              = (Ok (mkJWTPayload 7 "alice" "user" 1700086400 1700000000),
                 example.small_world)) by (vm_compute; reflexivity).
  rewrite (proj1 (JWT_gate_forwards_every_role (H := example.plain) example.segments_of
                    example.svc example.done (example.request "Bearer alice.token" [])
                    example.small_world _ _ eq_refl ltac:(vm_compute; discriminate) V)).
  reflexivity.
Defined.

Lemma admin_users_route_witness :
  let answer (authorization : string) :=
    match fst (routes.admin_users (H := example.plain) example.segments_of "s3cret"
                 (example.request authorization []) example.small_world) with
    | Ok c => option_map fst (response c)
    | _ => None
    end in
  answer "Bearer alice.token" = Some StatusForbidden
  /\ answer "Bearer carol.token" = Some StatusInternalServerError.
Proof.
  intros answer. unfold answer.
  assert (V : services.ValidateJWT (H := example.plain) (routes.authService "s3cret")
                (example.segments_of (middleware.TrimPrefix_Bearer "Bearer alice.token"))
                example.small_world
              = (Ok (mkJWTPayload 7 "alice" "user" 1700086400 1700000000),
                 example.small_world)) by (vm_compute; reflexivity).
  assert (V' : services.ValidateJWT (H := example.plain) (routes.authService "s3cret")
                 (example.segments_of (middleware.TrimPrefix_Bearer "Bearer carol.token"))
                 example.small_world
               = (Ok (mkJWTPayload 9 "carol" "admin" 1700086400 1700000000),
                  example.small_world)) by (vm_compute; reflexivity).
  split.
  - destruct (admin_users_route_is_admin_only (H := example.plain) example.segments_of
                "s3cret" (example.request "Bearer alice.token" []) example.small_world
                _ _ eq_refl ltac:(vm_compute; discriminate) V)
      as (c' & w' & code & body & E & Hresp & _ & Hno & _).
    rewrite E. cbn [fst]. rewrite Hresp. cbn.
    destruct (Hno ltac:(cbn; discriminate)) as (Hc & _). rewrite Hc. reflexivity.
  - vm_compute. reflexivity.
Defined.
